(** * EcommerceRESTAPI: cart, checkout and order ledger

    A shallow embedding of the Express/Sequelize controllers: the cart
    controller (addToCart, getCart, updateCartItem, removeFromCart,
    clearCart), [src/controllers/orderController.js] (placeOrder,
    getOrderById, updateOrderStatus) and [updateProduct] of
    [src/controllers/productController.js].

    Conventions of the embedding.
    - The database is a record of tables; a table is the list of its rows.
      A controller is a function from the request parameters and the
      database to the HTTP response and the database afterwards.
    - [DECIMAL(10,2)] columns hold an integer number of cents ([Z]);
      [INTEGER] columns are [Z].  A nullable value is an [option].
    - A JavaScript number is an IEEE 754 double: NaN, an infinity or a
      finite rational; every arithmetic operation rounds its exact result to
      53 significant bits, ties to even ([round53]).
    - Requests are handled one at a time: no other request runs between two
      statements of a controller.  placeOrder takes no row lock (the
      [lock: true] of its cart query is commented out), so what is proved
      of its stock check is proved of a checkout that runs alone.
    - A Sequelize transaction is a computation on a working copy of the
      tables that is either committed or discarded; the keys it took from
      the sequences are not given back.
    - The [error] field of a 500 response (the text of the caught exception)
      is not represented. *)

From Stdlib Require Import ZArith QArith Qround Qpower Lqa List String Bool Lia
  DecimalString.
Import ListNotations.
Open Scope string_scope.
Open Scope list_scope.
Open Scope Z_scope.

(** ** Rows *)

(** Modelled from the spec: [models/Product.js] is not among the sources; the
    columns are the ones the controllers read and write (name, description,
    price, stock, categoryId, imageUrl), price being a fixed-point decimal and
    stock an integer. *)
Record Product := mkProduct {
  p_id : Z;
  p_name : string;
  p_description : option string;
  p_price : Z;
  p_stock : Z;
  p_categoryId : Z;
  p_imageUrl : option string
}.

Record Category := mkCategory { cat_id : Z; cat_name : string }.

Record Cart := mkCart { cart_id : Z; cart_userId : Z }.

(** [priceAtAdd] is declared NOT NULL, but addToCart guards against a row
    without it, so the field is nullable here. *)
Record CartItem := mkCartItem {
  ci_id : Z;
  ci_cartId : Z;
  ci_productId : Z;
  ci_quantity : Z;
  ci_priceAtAdd : option Z
}.

(** Modelled from the spec: [models/Order.js] is not among the sources; an
    order carries its owner, a fixed-point [totalAmount] and a [status]. *)
Record Order := mkOrder {
  o_id : Z;
  o_userId : Z;
  o_totalAmount : Z;
  o_status : string
}.

(** Modelled from the spec: [models/OrderItem.js] is not among the sources; an
    order line references a product and carries [quantity] and a fixed-point
    [priceAtPurchase]. *)
Record OrderItem := mkOrderItem {
  oi_id : Z;
  oi_orderId : Z;
  oi_productId : Z;
  oi_quantity : Z;
  oi_priceAtPurchase : Z
}.

(** The tables, and the sequences behind the autoIncrement keys. *)
Record DB := mkDB {
  Categories : list Category;
  Products : list Product;
  Carts : list Cart;
  CartItems : list CartItem;
  Orders : list Order;
  OrderItems : list OrderItem;
  seqCarts : Z;
  seqCartItems : Z;
  seqOrders : Z;
  seqOrderItems : Z
}.

(** ** Responses *)

Record Response (D : Type) := mkResponse {
  status : Z;
  success : bool;
  message : option string;
  data : option D
}.
Arguments mkResponse {D} _ _ _ _.
Arguments status {D} _.
Arguments success {D} _.
Arguments message {D} _.
Arguments data {D} _.

(** [res.status(code).json({ success: false, message })] *)
Definition failure {D} (code : Z) (msg : string) : Response D :=
  mkResponse code false (Some msg) None.

(** A cart with [include: items -> product]. *)
Record CartView := mkCartView {
  cv_cart : Cart;
  cv_items : list (CartItem * option Product)
}.

(** getCart's payload: [{ ...cart.toJSON(), total: total.toFixed(2) }].
    [ctv_items] is the [items] key of [cart.toJSON()]: the included lines of
    a cart that was found, and absent ([None]) for a cart that was just
    created, whose [items] is a plain property set by the controller.
    [ctv_total] is [None] for the strings "NaN" and "Infinity". *)
Record CartTotalView := mkCartTotalView {
  ctv_cart : Cart;
  ctv_items : option (list (CartItem * option Product));
  ctv_total : option Z
}.

(** An order with [include: items -> product]. *)
Record OrderView := mkOrderView {
  ov_order : Order;
  ov_items : list (OrderItem * option Product)
}.

(** ** Sequelize queries *)

Module Sequelize.

Definition findOne {A} (where_ : A -> bool) (rows : list A) : option A :=
  find where_ rows.

Definition findAll {A} (where_ : A -> bool) (rows : list A) : list A :=
  filter where_ rows.

(** [Model.destroy({ where })] *)
Definition destroy {A} (where_ : A -> bool) (rows : list A) : list A :=
  filter (fun r => negb (where_ r)) rows.

(** [UPDATE ... SET ... WHERE ...] *)
Definition update {A} (where_ : A -> bool) (set : A -> A) (rows : list A)
  : list A :=
  map (fun r => if where_ r then set r else r) rows.

End Sequelize.
Import Sequelize.

Definition Product_findByPk (id : Z) (db : DB) : option Product :=
  findOne (fun p => p_id p =? id) (Products db).

Definition Category_findByPk (id : Z) (db : DB) : option Category :=
  findOne (fun c => cat_id c =? id) (Categories db).

Definition Order_findByPk (id : Z) (db : DB) : option Order :=
  findOne (fun o => o_id o =? id) (Orders db).

(** [Cart.findOne({ where: { userId } })] *)
Definition Cart_findOne (userId : Z) (db : DB) : option Cart :=
  findOne (fun c => cart_userId c =? userId) (Carts db).

(** The lines of a cart: [CartItem] rows with [cartId = cart.id]. *)
Definition itemsOf (cartId : Z) (db : DB) : list CartItem :=
  findAll (fun i => ci_cartId i =? cartId) (CartItems db).

Definition includeProduct (db : DB) (i : CartItem) : CartItem * option Product :=
  (i, Product_findByPk (ci_productId i) db).

(** [Cart.findOne({ where: { userId }, include: items -> product })] *)
Definition Cart_findOne_include (userId : Z) (db : DB) : option CartView :=
  match Cart_findOne userId db with
  | None => None
  | Some cart =>
      Some (mkCartView cart (map (includeProduct db) (itemsOf (cart_id cart) db)))
  end.

(** [Cart.create({ userId })] *)
Definition Cart_create (userId : Z) (db : DB) : Cart * DB :=
  let cart := mkCart (seqCarts db) userId in
  (cart,
   mkDB (Categories db) (Products db) (Carts db ++ [cart]) (CartItems db)
        (Orders db) (OrderItems db)
        (seqCarts db + 1) (seqCartItems db) (seqOrders db) (seqOrderItems db)).

Definition set_CartItems (items : list CartItem) (db : DB) : DB :=
  mkDB (Categories db) (Products db) (Carts db) items
       (Orders db) (OrderItems db)
       (seqCarts db) (seqCartItems db) (seqOrders db) (seqOrderItems db).

Definition set_Products (ps : list Product) (db : DB) : DB :=
  mkDB (Categories db) ps (Carts db) (CartItems db)
       (Orders db) (OrderItems db)
       (seqCarts db) (seqCartItems db) (seqOrders db) (seqOrderItems db).

Definition set_Orders (os : list Order) (db : DB) : DB :=
  mkDB (Categories db) (Products db) (Carts db) (CartItems db)
       os (OrderItems db)
       (seqCarts db) (seqCartItems db) (seqOrders db) (seqOrderItems db).

(** [CartItem.create({ cartId, productId, quantity, priceAtAdd })].  The
    model's [validate: { min: 1 }] and the INTEGER column refuse a quantity
    outside 1 .. 2147483647: the create throws ([None]) and no row is
    written. *)
Definition CartItem_create (cartId productId quantity : Z) (priceAtAdd : Z)
  (db : DB) : option (CartItem * DB) :=
  if (1 <=? quantity) && (quantity <=? 2147483647) then
    let item := mkCartItem (seqCartItems db) cartId productId quantity
                           (Some priceAtAdd) in
    Some (item,
          mkDB (Categories db) (Products db) (Carts db) (CartItems db ++ [item])
               (Orders db) (OrderItems db)
               (seqCarts db) (seqCartItems db + 1) (seqOrders db)
               (seqOrderItems db))
  else None.

(** [cartItem.save()]: writes the changed columns of the row.  [quantity] is
    always assigned by the callers; [priceAtAdd] is [Some v] when it was
    assigned [v], and [None] when it was left alone.  The save of a quantity
    below 1, which the model's [validate: { min: 1 }] would refuse, is not
    distinguished: updateCartItem has checked the quantity by then, and the
    sum addToCart saves is at least 2 for the quantities its route admits. *)
Definition CartItem_save (item : CartItem) (quantity : Z)
  (priceAtAdd : option Z) (db : DB) : DB :=
  set_CartItems
    (update (fun i => ci_id i =? ci_id item)
            (fun i => mkCartItem (ci_id i) (ci_cartId i) (ci_productId i)
                                 quantity
                                 (match priceAtAdd with
                                  | Some v => Some v
                                  | None => ci_priceAtAdd i
                                  end))
            (CartItems db))
    db.

(** [product.decrement('stock', { by })] *)
Definition Product_decrement (product : Product) (by_ : Z) (db : DB) : DB :=
  set_Products
    (update (fun p => p_id p =? p_id product)
            (fun p => mkProduct (p_id p) (p_name p) (p_description p)
                                (p_price p) (p_stock p - by_)
                                (p_categoryId p) (p_imageUrl p))
            (Products db))
    db.

(** Template-literal rendering of an integer. *)
Definition string_of_Z (z : Z) : string := NilZero.string_of_int (Z.to_int z).

(** ** JavaScript numbers *)

(** An IEEE 754 double: NaN, an infinity, or a finite value.  The finite
    values that occur are the rationals [round53] yields.  The sign of a
    zero is not kept: toFixed prints both zeros alike. *)
Inductive number :=
| NaN
| Infinity (negative : bool)
| Finite (value : Q).

(** The binary exponent of a positive rational, floor(log2 x). *)
Definition exponentOf (x : Q) : Z :=
  let g := Z.log2 (Qnum x) - Z.log2 (Zpos (Qden x)) in
  if Qle_bool (2 ^ g) x then g else g - 1.

(** The nearest integer, a tie going to the even one. *)
Definition nearestEven (y : Q) : Z :=
  let f := Qfloor y in
  match (y - inject_Z f ?= 1 # 2)%Q with
  | Lt => f
  | Gt => f + 1
  | Eq => if Z.even f then f else f + 1
  end.

(** A positive rational rounded to 53 significant bits, or to a multiple of
    2^-1074 in the subnormal range. *)
Definition round53pos (x : Q) : Q :=
  let s := Z.max (exponentOf x - 52) (-1074) in
  Qred (inject_Z (nearestEven (x / 2 ^ s)) * 2 ^ s).

(** The double an exact result rounds to; 2^1024 and beyond overflow. *)
Definition round53 (x : Q) : number :=
  match Qnum x with
  | 0 => Finite 0
  | Zpos _ =>
      let r := round53pos x in
      if Qle_bool (2 ^ 1024) r then Infinity false else Finite r
  | Zneg _ =>
      let r := round53pos (- x) in
      if Qle_bool (2 ^ 1024) r then Infinity true else Finite (- r)
  end.

(** [parseFloat] of a DECIMAL column, which the driver hands over as the
    string of its decimal expansion: the double nearest to cents / 100;
    [parseFloat(null)] is NaN. *)
Definition parseFloat (decimal : option Z) : number :=
  match decimal with
  | Some cents => round53 (cents # 100)
  | None => NaN
  end.

(** An INTEGER column as a number. *)
Definition ofInteger (n : Z) : number :=
  if Z.abs n <=? 2 ^ 53 then Finite (inject_Z n) else round53 (inject_Z n).

(** [x * y] *)
Definition times (x y : number) : number :=
  match x, y with
  | Finite a, Finite b => round53 (a * b)
  | NaN, _ | _, NaN => NaN
  | Infinity s, Finite b =>
      match Qnum b with
      | 0 => NaN
      | Zpos _ => Infinity s
      | Zneg _ => Infinity (negb s)
      end
  | Finite a, Infinity s =>
      match Qnum a with
      | 0 => NaN
      | Zpos _ => Infinity s
      | Zneg _ => Infinity (negb s)
      end
  | Infinity s, Infinity t => Infinity (xorb s t)
  end.

(** [x + y] *)
Definition plus (x y : number) : number :=
  match x, y with
  | Finite a, Finite b => round53 (a + b)
  | NaN, _ | _, NaN => NaN
  | Infinity s, Finite _ | Finite _, Infinity s => Infinity s
  | Infinity s, Infinity t => if Bool.eqb s t then Infinity s else NaN
  end.

(** [Number.prototype.toFixed(2)], as a number of cents: the multiple of
    0.01 nearest to the exact value of the double, a tie going away from
    zero; [None] for "NaN" and "Infinity". *)
Definition toFixed2 (x : number) : option Z :=
  match x with
  | Finite q =>
      if Qle_bool 0 q
      then Some (Qfloor (q * 100 + (1 # 2)))
      else Some (- Qfloor (- q * 100 + (1 # 2)))
  | _ => None
  end.

(** ** Cart controller *)

(** The [where] clause [{ cartId, productId }]. *)
Definition lineWhere (cartId productId : Z) (i : CartItem) : bool :=
  (ci_cartId i =? cartId) && (ci_productId i =? productId).

(** The [where] clause [{ id: itemId, cartId }]. *)
Definition itemWhere (itemId cartId : Z) (i : CartItem) : bool :=
  (ci_id i =? itemId) && (ci_cartId i =? cartId).

(** [let cart = await Cart.findOne(...); if (!cart) cart = await Cart.create(...)] *)
Definition getOrCreateCart (userId : Z) (db : DB) : Cart * DB :=
  match Cart_findOne userId db with
  | Some cart => (cart, db)
  | None => Cart_create userId db
  end.

Definition addToCart (userId productId quantity : Z) (db : DB)
  : Response CartView * DB :=
  match Product_findByPk productId db with
  | None => (failure 404 "Product not found", db)
  | Some product =>
      let (cart, db1) := getOrCreateCart userId db in
      match findOne (lineWhere (cart_id cart) productId) (CartItems db1) with
      | Some cartItem =>
          let newQuantity := ci_quantity cartItem + quantity in
          if p_stock product <? newQuantity then
            (failure 400
               ("Cannot add more items. Only " ++ string_of_Z (p_stock product)
                ++ " items available")%string,
             db1)
          else
            (* if (!cartItem.priceAtAdd) cartItem.priceAtAdd = product.price *)
            let priceAtAdd :=
              match ci_priceAtAdd cartItem with
              | None => Some (p_price product)
              | Some _ => None
              end in
            let db2 := CartItem_save cartItem newQuantity priceAtAdd db1 in
            (mkResponse 200 true (Some "Item added to cart successfully")
                        (Cart_findOne_include userId db2),
             db2)
      | None =>
          match CartItem_create (cart_id cart) productId quantity
                                (p_price product) db1 with
          | Some (_, db2) =>
              (mkResponse 200 true (Some "Item added to cart successfully")
                          (Cart_findOne_include userId db2),
               db2)
          | None =>
              (* the create throws; the cart of the request stays *)
              (failure 500 "Error adding item to cart", db1)
          end
      end
  end.

(** [parseFloat(item.priceAtAdd) * item.quantity] *)
Definition lineTotal (item : CartItem) : number :=
  times (parseFloat (ci_priceAtAdd item)) (ofInteger (ci_quantity item)).

(** [cart.items.reduce((sum, item) => sum + parseFloat(item.priceAtAdd) * item.quantity, 0)] *)
Definition cartTotal (items : list (CartItem * option Product)) : number :=
  fold_left (fun sum item => plus sum (lineTotal (fst item))) items (Finite 0).

Definition getCart (userId : Z) (db : DB) : Response CartTotalView * DB :=
  match Cart_findOne_include userId db with
  | Some cart =>
      (mkResponse 200 true None
                  (Some (mkCartTotalView (cv_cart cart) (Some (cv_items cart))
                                         (toFixed2 (cartTotal (cv_items cart))))),
       db)
  | None =>
      let (c, db1) := Cart_create userId db in
      (* cart.items = []: read by the reduce, not serialised by toJSON() *)
      (mkResponse 200 true None
                  (Some (mkCartTotalView c None (toFixed2 (cartTotal [])))),
       db1)
  end.

Definition updateCartItem (userId itemId quantity : Z) (db : DB)
  : Response CartView * DB :=
  match Cart_findOne userId db with
  | None => (failure 404 "Cart not found", db)
  | Some cart =>
      match findOne (itemWhere itemId (cart_id cart)) (CartItems db) with
      | None => (failure 404 "Cart item not found", db)
      | Some cartItem =>
          if quantity <? 1 then
            (failure 400 "Quantity must be at least 1", db)
          else
            match Product_findByPk (ci_productId cartItem) db with
            | None =>
                (* cartItem.product is null: the TypeError is caught *)
                (failure 500 "Error updating cart item", db)
            | Some product =>
                if p_stock product <? quantity then
                  (failure 400
                     ("Insufficient stock. Only " ++ string_of_Z (p_stock product)
                      ++ " available")%string,
                   db)
                else
                  let db1 := CartItem_save cartItem quantity None db in
                  (mkResponse 200 true (Some "Cart item updated successfully")
                              (Cart_findOne_include userId db1),
                   db1)
            end
      end
  end.

Definition removeFromCart (userId itemId : Z) (db : DB)
  : Response CartView * DB :=
  match Cart_findOne userId db with
  | None => (failure 404 "Cart not found", db)
  | Some cart =>
      match findOne (itemWhere itemId (cart_id cart)) (CartItems db) with
      | None => (failure 404 "Cart item not found", db)
      | Some cartItem =>
          let db1 :=
            set_CartItems
              (destroy (fun i => ci_id i =? ci_id cartItem) (CartItems db)) db in
          (mkResponse 200 true (Some "Item removed from cart successfully")
                      (Cart_findOne_include userId db1),
           db1)
      end
  end.

Definition clearCart (userId : Z) (db : DB) : Response unit * DB :=
  match Cart_findOne userId db with
  | None => (failure 404 "Cart not found", db)
  | Some cart =>
      (mkResponse 200 true (Some "Cart cleared successfully") None,
       set_CartItems
         (destroy (fun i => ci_cartId i =? cart_id cart) (CartItems db)) db)
  end.

(** ** Transactions *)

(** How the body of [sequelize.transaction()] ends: [t.commit()] publishes the
    working copy, [t.rollback()] drops its rows and keeps the sequences where
    the body left them. *)
Inductive TxEnd (R : Type) :=
| Commit (r : R) (tx : DB)
| Rollback (r : R) (tx : DB).
Arguments Commit {R} _ _.
Arguments Rollback {R} _ _.

Definition rollback (db tx : DB) : DB :=
  mkDB (Categories db) (Products db) (Carts db) (CartItems db)
       (Orders db) (OrderItems db)
       (seqCarts tx) (seqCartItems tx) (seqOrders tx) (seqOrderItems tx).

Definition transaction {R} (body : DB -> TxEnd R) (db : DB) : R * DB :=
  match body db with
  | Commit r tx => (r, tx)
  | Rollback r tx => (r, rollback db tx)
  end.

(** ** Order controller *)

(** The object pushed on [orderItems]. *)
Record OrderItemDraft := mkDraft {
  d_productId : Z;
  d_quantity : Z;
  d_priceAtPurchase : option Z
}.

(** [{ productId: item.productId, quantity: item.quantity,
       priceAtPurchase: item.priceAtAdd }] *)
Definition draftOf (item : CartItem) : OrderItemDraft :=
  mkDraft (ci_productId item) (ci_quantity item) (ci_priceAtAdd item).

(** Where the [for (const item of cart.items)] loop of placeOrder ends. *)
Inductive LoopEnd :=
| LoopDone (totalAmount : number) (orderItems : list OrderItemDraft) (tx : DB)
| LoopInsufficient (product : Product) (tx : DB)
| LoopThrow (tx : DB).

Fixpoint placeOrder_loop (items : list (CartItem * option Product))
  (totalAmount : number) (orderItems : list OrderItemDraft) (tx : DB)
  : LoopEnd :=
  match items with
  | [] => LoopDone totalAmount orderItems tx
  | (item, None) :: _ => LoopThrow tx   (* item.product is null *)
  | (item, Some product) :: rest =>
      if p_stock product <? ci_quantity item then LoopInsufficient product tx
      else
        let itemTotal := lineTotal item in
        placeOrder_loop rest
          (plus totalAmount itemTotal)
          (orderItems ++ [draftOf item])
          (Product_decrement product (ci_quantity item) tx)
  end.

(** What an INSERT into Orders comes to.  Each of them takes a key from the
    sequence. *)
Inductive OrderInsert :=
| OrderInserted (order : Order) (db : DB)
| OrderInsertedNaN (id : Z) (db : DB)
| OrderRefused (db : DB).

(** The next key of the Orders sequence is taken. *)
Definition Order_nextval (db : DB) : DB :=
  mkDB (Categories db) (Products db) (Carts db) (CartItems db)
       (Orders db) (OrderItems db)
       (seqCarts db) (seqCartItems db) (seqOrders db + 1) (seqOrderItems db).

(** A number of cents that DECIMAL(10,2) holds: below 10^8 in absolute
    value. *)
Definition fitsDecimal (cents : Z) : bool := Z.abs cents <? 10 ^ 10.

(** [Order.create({ userId, totalAmount, status })].  Modelled from the spec:
    [totalAmount] is a fixed-point decimal of the precision of the price
    columns, DECIMAL(10,2).  A total beyond it is refused with a numeric
    overflow, and so is "Infinity"; the string "NaN" is a value of the
    column, and the row that holds it ([OrderInsertedNaN]) has no [Order]
    to stand for it. *)
Definition Order_create (userId : Z) (totalAmount : option Z) (status_ : string)
  (db : DB) : OrderInsert :=
  match totalAmount with
  | Some total =>
      if fitsDecimal total then
        let order := mkOrder (seqOrders db) userId total status_ in
        OrderInserted order
          (mkDB (Categories db) (Products db) (Carts db) (CartItems db)
                (Orders db ++ [order]) (OrderItems db)
                (seqCarts db) (seqCartItems db) (seqOrders db + 1)
                (seqOrderItems db))
      else OrderRefused (Order_nextval db)
  | None => OrderInsertedNaN (seqOrders db) (Order_nextval db)
  end.

(** [OrderItem.create({ orderId, ...orderItem })].  Modelled from the spec:
    [priceAtPurchase] is a fixed-point decimal that is not nullable, so a
    missing price is refused before any INSERT ([None]). *)
Definition OrderItem_create (orderId : Z) (d : OrderItemDraft) (db : DB)
  : option DB :=
  match d_priceAtPurchase d with
  | None => None
  | Some price =>
      let row := mkOrderItem (seqOrderItems db) orderId (d_productId d)
                             (d_quantity d) price in
      Some (mkDB (Categories db) (Products db) (Carts db) (CartItems db)
                 (Orders db) (OrderItems db ++ [row])
                 (seqCarts db) (seqCartItems db) (seqOrders db)
                 (seqOrderItems db + 1))
  end.

(** Where [for (const orderItem of orderItems) await OrderItem.create(...)]
    ends: all rows written, or a create that threw. *)
Inductive ItemsEnd :=
| ItemsCreated (tx : DB)
| ItemsThrow (tx : DB).

Fixpoint createOrderItems (orderId : Z) (orderItems : list OrderItemDraft)
  (tx : DB) : ItemsEnd :=
  match orderItems with
  | [] => ItemsCreated tx
  | d :: rest =>
      match OrderItem_create orderId d tx with
      | None => ItemsThrow tx
      | Some tx' => createOrderItems orderId rest tx'
      end
  end.

Definition includeOrderProduct (db : DB) (i : OrderItem)
  : OrderItem * option Product :=
  (i, Product_findByPk (oi_productId i) db).

Definition orderItemsOf (orderId : Z) (db : DB) : list OrderItem :=
  findAll (fun i => oi_orderId i =? orderId) (OrderItems db).

Definition orderView (db : DB) (order : Order) : OrderView :=
  mkOrderView order (map (includeOrderProduct db) (orderItemsOf (o_id order) db)).

(** [Order.findByPk(id, { include: items -> product })] *)
Definition Order_findByPk_include (id : Z) (db : DB) : option OrderView :=
  option_map (orderView db) (Order_findByPk id db).

(** The part of placeOrder between [sequelize.transaction()] and
    [t.commit()] / [t.rollback()]; on commit it hands over the id of the
    order. *)
Definition placeOrder_tx (userId : Z) (tx : DB)
  : TxEnd (Response OrderView + Z) :=
  match Cart_findOne_include userId tx with
  | None => Rollback (inl (failure 400 "Cart is empty")) tx
  | Some cart =>
      match cv_items cart with
      | [] => Rollback (inl (failure 400 "Cart is empty")) tx
      | _ :: _ =>
          match placeOrder_loop (cv_items cart) (Finite 0) [] tx with
          | LoopInsufficient product tx1 =>
              Rollback
                (inl (failure 400
                        ("Insufficient stock for " ++ p_name product
                         ++ ". Only " ++ string_of_Z (p_stock product)
                         ++ " available")%string))
                tx1
          | LoopThrow tx1 =>
              Rollback (inl (failure 500 "Error placing order")) tx1
          | LoopDone totalAmount orderItems tx1 =>
              match Order_create userId (toFixed2 totalAmount) "pending" tx1 with
              | OrderRefused tx2 =>
                  Rollback (inl (failure 500 "Error placing order")) tx2
              | OrderInsertedNaN id tx2 =>
                  (* "NaN" comes from a line without a price, whose
                     OrderItem.create throws; "Infinity" is refused by the
                     column: either way the catch rolls back *)
                  match createOrderItems id orderItems tx2 with
                  | ItemsThrow tx3 | ItemsCreated tx3 =>
                      Rollback (inl (failure 500 "Error placing order")) tx3
                  end
              | OrderInserted order tx2 =>
                  match createOrderItems (o_id order) orderItems tx2 with
                  | ItemsThrow tx3 =>
                      Rollback (inl (failure 500 "Error placing order")) tx3
                  | ItemsCreated tx3 =>
                      Commit (inr (o_id order))
                        (set_CartItems
                           (destroy
                              (fun i => ci_cartId i =? cart_id (cv_cart cart))
                              (CartItems tx3))
                           tx3)
                  end
              end
          end
      end
  end.

Definition placeOrder (userId : Z) (db : DB) : Response OrderView * DB :=
  match transaction (placeOrder_tx userId) db with
  | (inl response, db') => (response, db')
  | (inr orderId, db') =>
      (mkResponse 201 true (Some "Order placed successfully")
                  (Order_findByPk_include orderId db'),
       db')
  end.

(** [Order.findOne({ where: { id, userId }, include: ... })] *)
Definition getOrderById (userId id : Z) (db : DB) : Response OrderView :=
  match findOne (fun o => (o_id o =? id) && (o_userId o =? userId)) (Orders db) with
  | None => failure 404 "Order not found"
  | Some order => mkResponse 200 true None (Some (orderView db order))
  end.

(** [['pending', 'completed', 'cancelled'].includes(status)] *)
Definition validStatus (status_ : string) : bool :=
  existsb (String.eqb status_) ["pending"; "completed"; "cancelled"].

(** [status_] is [req.body.status], [None] when the body has no such field. *)
Definition updateOrderStatus (id : Z) (status_ : option string) (db : DB)
  : Response OrderView * DB :=
  match status_ with
  | None =>
      (failure 400 "Invalid status. Must be: pending, completed, or cancelled", db)
  | Some status_ =>
  if negb (validStatus status_) then
    (failure 400 "Invalid status. Must be: pending, completed, or cancelled", db)
  else
    match Order_findByPk id db with
    | None => (failure 404 "Order not found", db)
    | Some order =>
        let db1 :=
          set_Orders
            (update (fun o => o_id o =? o_id order)
                    (fun o => mkOrder (o_id o) (o_userId o) (o_totalAmount o)
                                      status_)
                    (Orders db))
            db in
        (mkResponse 200 true (Some "Order status updated successfully")
                    (Order_findByPk_include id db1),
         db1)
    end
  end.

(** ** Product controller: updateProduct *)

(** [req.body] of PUT /api/products/:id; an absent field is [None]. *)
Record ProductBody := mkProductBody {
  b_name : option string;
  b_description : option string;
  b_price : option Z;
  b_stock : option Z;
  b_categoryId : option Z
}.

(** [req.file] and what the Cloudinary upload answers for it. *)
Inductive Upload :=
| NoFile
| Uploaded (secure_url : string)
| UploadError.

(** An assigned column takes the new value, an [undefined] one is skipped. *)
Definition assign {A} (new : option A) (old : A) : A :=
  match new with
  | Some v => v
  | None => old
  end.

(** [product.update({ name, description, price, stock, categoryId, imageUrl })] *)
Definition Product_update (product : Product) (body : ProductBody)
  (imageUrl : option string) (db : DB) : DB :=
  set_Products
    (update (fun p => p_id p =? p_id product)
            (fun p => mkProduct (p_id p)
                                (assign (b_name body) (p_name p))
                                (match b_description body with
                                 | Some d => Some d
                                 | None => p_description p
                                 end)
                                (assign (b_price body) (p_price p))
                                (assign (b_stock body) (p_stock p))
                                (assign (b_categoryId body) (p_categoryId p))
                                imageUrl)
            (Products db))
    db.

Definition productView (db : DB) (p : Product) : Product * option Category :=
  (p, Category_findByPk (p_categoryId p) db).

Definition updateProduct (id : Z) (body : ProductBody) (file : Upload) (db : DB)
  : Response (Product * option Category) * DB :=
  match Product_findByPk id db with
  | None => (failure 404 "Product not found", db)
  | Some product =>
      (* if (categoryId) { ... }: 0 and undefined skip the lookup *)
      let categoryMissing :=
        match b_categoryId body with
        | Some c =>
            if c =? 0 then false
            else match Category_findByPk c db with
                 | None => true
                 | Some _ => false
                 end
        | None => false
        end in
      if categoryMissing then (failure 404 "Category not found", db)
      else
        match file with
        | UploadError => (failure 500 "Error uploading image", db)
        | _ =>
            let imageUrl :=
              match file with
              | Uploaded url => Some url
              | _ => p_imageUrl product
              end in
            (* models/index.js: Product.belongsTo(Category, { foreignKey:
               'categoryId' }); the UPDATE that sets a categoryId without a
               category (the 0 that skipped the lookup) breaks the foreign
               key and throws *)
            let foreignKeyViolated :=
              match b_categoryId body with
              | Some c =>
                  match Category_findByPk c db with
                  | None => true
                  | Some _ => false
                  end
              | None => false
              end in
            if foreignKeyViolated then (failure 500 "Error updating product", db)
            else
              let db1 := Product_update product body imageUrl db in
              (mkResponse 200 true (Some "Product updated successfully")
                          (option_map (productView db1)
                                      (Product_findByPk (p_id product) db1)),
               db1)
        end
  end.

(** A run of catalog updates, each one a PUT /api/products/:id request. *)
Definition updateProducts (requests : list (Z * ProductBody * Upload)) (db : DB)
  : DB :=
  fold_left
    (fun db request =>
       let '(id, body, file) := request in snd (updateProduct id body file db))
    requests db.

(** ** Vocabulary of the statements *)

(** The lines of a customer's selection. *)
Definition linesOf (userId : Z) (db : DB) : list CartItem :=
  match Cart_findOne userId db with
  | Some cart => itemsOf (cart_id cart) db
  | None => []
  end.

(** The lines of a selection that reference a product. *)
Definition linesFor (productId : Z) (lines : list CartItem) : list CartItem :=
  filter (fun i => ci_productId i =? productId) lines.


(** Every line references a cart that the sequence has already issued: the
    foreign key [CartItem.cartId -> Carts.id] together with autoIncrement. *)
Definition cartIdsIssued (db : DB) : Prop :=
  forall i, In i (CartItems db) -> ci_cartId i < seqCarts db.

(** The quantity a selection asks of a product, all its lines together. *)
Definition orderedQuantity (productId : Z) (lines : list CartItem) : Z :=
  fold_right Z.add 0 (map ci_quantity (linesFor productId lines)).

(** The statement's total, in cents: the sum over the lines of
    frozenUnitPrice x quantity.  Prices are whole cents, so the sum already
    has two decimal places. *)
Definition spec_totalCents (lines : list CartItem) : Z :=
  fold_right Z.add 0
    (map (fun l => match ci_priceAtAdd l with
                   | Some cents => cents * ci_quantity l
                   | None => 0
                   end) lines).

(** The stock updates of a loop that runs to its end. *)
Definition decrementStock (tx : DB) (item : CartItem * option Product) : DB :=
  match snd item with
  | Some product => Product_decrement product (ci_quantity (fst item)) tx
  | None => tx
  end.

(** The working copy the loop ends with. *)
Definition loopTx (e : LoopEnd) : DB :=
  match e with
  | LoopDone _ _ tx | LoopInsufficient _ tx | LoopThrow tx => tx
  end.

(** The running total of a loop that runs to its end. *)
Definition addLineTotal (sum : number) (item : CartItem * option Product)
  : number :=
  plus sum (lineTotal (fst item)).

(** A line as its columns hold it: a frozen price that is present and not
    negative, a quantity within [validate: { min: 1 }] and INTEGER. *)
Definition columnsValid (l : CartItem) : bool :=
  match ci_priceAtAdd l with
  | Some cents =>
      (0 <=? cents) && (1 <=? ci_quantity l) && (ci_quantity l <=? 2147483647)
  | None => false
  end.

(** Cents as an exact amount. *)
Definition amount (cents : Z) : Q := inject_Z cents * (1 # 100).

(** The unit roundoff of a double, 2^-53: the relative error of one
    rounding. *)
Definition unitRoundoff : Q := 1 # 9007199254740992.

(** What one line adds to the distance between the running double sum and
    the exact total, for totals below 10^8: three roundings of the line
    total and one of the sum, (4 * 10^8 + 1) * 2^-53. *)
Definition stepError : Q := 400000001 # 9007199254740992.

(** An order line copies a selection line. *)
Definition copiesLine (orderId : Z) (l : CartItem) (row : OrderItem) : Prop :=
  oi_orderId row = orderId /\
  oi_productId row = ci_productId l /\
  oi_quantity row = ci_quantity l /\
  Some (oi_priceAtPurchase row) = ci_priceAtAdd l.

(** A status value outside {pending, completed, cancelled}; a body without
    the field is outside as well. *)
Definition outsideStatuses (status_ : option string) : Prop :=
  forall s, status_ = Some s ->
            s <> "pending" /\ s <> "completed" /\ s <> "cancelled".

(** ** Sample data

    The fixtures of [tests/order.test.js] and [tests/cart.test.js]: one
    category, a tablet at 399.99 with 15 in stock, a second product with 2
    in stock; user 1 is the administrator, users 2 and 3 are customers. *)

Definition tablet : Product :=
  mkProduct 1 "Tablet" (Some "Portable tablet device") 39999 15 1 None.

Definition almostGone : Product :=
  mkProduct 2 "Almost Gone" None 4999 2 1 None.

Definition shop : DB :=
  mkDB [mkCategory 1 "Electronics"] [tablet; almostGone] [] [] [] [] 1 1 1 1.

(** A product at the largest price of a DECIMAL(10,2) column, 99999999.99,
    and customer 2's cart with 1000001 of it, which the stock covers. *)
Definition dearShop : DB :=
  mkDB [mkCategory 1 "Electronics"]
       [mkProduct 1 "Dear" None 9999999999 2000000 1 None]
       [mkCart 1 2]
       [mkCartItem 1 1 1 1000001 (Some 9999999999)]
       [] [] 2 2 1 1.

(** Customers 2 and 3 each with two of the product that has two in stock. *)
Definition shopRace : DB := snd (addToCart 3 2 2 (snd (addToCart 2 2 2 shop))).

(** The shop after customer 2 put two tablets in the cart. *)
Definition shopWithCart : DB := snd (addToCart 2 1 2 shop).

(** ... and after the order was placed. *)
Definition shopWithOrder : DB := snd (placeOrder 2 shopWithCart).

(** The administrator's price change of the persistent-pricing test. *)
Definition raisePrice : ProductBody :=
  mkProductBody (Some "Tablet") (Some "Portable tablet device")
                (Some 49999) (Some 13) (Some 1).

(** The administrator's stock reduction of the stock-management test. *)
Definition reduceStock : ProductBody :=
  mkProductBody (Some "Almost Gone") None (Some 4999) (Some 1) (Some 1).

(** ** Further controllers *)


(** [{ success, count, data }] of the list endpoints. *)
Record ListResponse (D : Type) := mkListResponse {
  l_status : Z;
  l_success : bool;
  l_count : Z;
  l_data : list D
}.
Arguments mkListResponse {D} _ _ _ _.
Arguments l_status {D} _.
Arguments l_success {D} _.
Arguments l_count {D} _.
Arguments l_data {D} _.

(** [Order.findAll({ where: { userId }, include: ..., order: [['createdAt', 'DESC']] })].
    A table lists its rows in creation order and [createdAt] is written once,
    at creation, so newest-first is the reverse of the table order (rows
    created within the same millisecond aside). *)
Definition getMyOrders (userId : Z) (db : DB) : ListResponse OrderView :=
  let orders := rev (findAll (fun o => o_userId o =? userId) (Orders db)) in
  mkListResponse 200 true (Z.of_nat (List.length orders)) (map (orderView db) orders).

(** ** Integrity constraints of the schema *)

(** At most one line per product in a cart. *)
Definition oneLinePerProduct (db : DB) : Prop :=
  forall cartId productId,
    (List.length (findAll (lineWhere cartId productId) (CartItems db)) <= 1)%nat.

(** At most one cart per user ([User.hasOne(Cart)]). *)
Definition oneCartPerUser (db : DB) : Prop :=
  NoDup (map cart_userId (Carts db)).

(** [Carts.id] is a primary key issued by the sequence. *)
Definition cartKeys (db : DB) : Prop :=
  NoDup (map cart_id (Carts db)) /\
  forall c, In c (Carts db) -> cart_id c < seqCarts db.

(** [CartItems.id] is a primary key. *)
Definition itemKeys (db : DB) : Prop :=
  NoDup (map ci_id (CartItems db)).

(** [Orders.id] is issued by the sequence, and order lines reference
    orders that exist. *)
Definition orderKeys (db : DB) : Prop :=
  (forall o, In o (Orders db) -> o_id o < seqOrders db) /\
  (forall r, In r (OrderItems db) -> oi_orderId r < seqOrders db).

(** No product has a negative stock. *)
Definition stockNonNegative (db : DB) : Prop :=
  forall productId p, Product_findByPk productId db = Some p -> 0 <= p_stock p.

(** The shop with a second cart: customer 3 holds one of product 2. *)
Definition shopTwoCarts : DB := snd (addToCart 3 2 1 shopWithCart).

(** The shop with a cart line from before the pricing rule: no priceAtAdd. *)
Definition shopLegacyLine : DB :=
  set_CartItems [mkCartItem 1 1 1 2 None] shopWithCart.

(** What a list of order lines records as sold of a product. *)
Definition soldQuantity (productId : Z) (rows : list OrderItem) : Z :=
  fold_right Z.add 0
    (map oi_quantity (findAll (fun r => oi_productId r =? productId) rows)).

(** The sum of priceAtPurchase x quantity over a list of order lines, in
    cents. *)
Definition orderLinesTotal (rows : list OrderItem) : Z :=
  fold_right Z.add 0 (map (fun r => oi_priceAtPurchase r * oi_quantity r) rows).

(** * Properties *)

(** The ways through [Order.create] and the order lines. *)
Ltac order_cases :=
  unfold Order_create;
  destruct (toFixed2 _); [destruct (fitsDecimal _)|];
  try destruct (createOrderItems _ _ _).

(** ** Queries over tables *)

Section Tables.
Context {A : Type}.
Variables (where_ pred : A -> bool) (set : A -> A).

Lemma findOne_In rows r :
  findOne pred rows = Some r -> In r rows /\ pred r = true.
Proof. apply find_some. Qed.

Lemma findOne_app rows more :
  findOne pred (rows ++ more) =
  match findOne pred rows with
  | Some r => Some r
  | None => findOne pred more
  end.
Proof.
  unfold findOne. induction rows as [|r rows IH]; simpl; [reflexivity|].
  destruct (pred r); [reflexivity | exact IH].
Qed.

Lemma findAll_app rows more :
  findAll pred (rows ++ more) = findAll pred rows ++ findAll pred more.
Proof. apply filter_app. Qed.

Lemma findOne_None_findAll rows :
  findOne pred rows = None -> findAll pred rows = [].
Proof.
  unfold findOne, findAll. induction rows as [|r rows IH]; simpl; [reflexivity|].
  destruct (pred r); [discriminate | exact IH].
Qed.

Lemma findAll_single_findOne rows r :
  findAll pred rows = [r] -> findOne pred rows = Some r.
Proof.
  unfold findOne, findAll. induction rows as [|r0 rows IH]; simpl; [discriminate|].
  destruct (pred r0); [congruence | exact IH].
Qed.

Lemma findOne_head_findAll rows r :
  findOne pred rows = Some r -> exists rest, findAll pred rows = r :: rest.
Proof.
  unfold findOne, findAll. induction rows as [|r0 rows IH]; simpl; [discriminate|].
  destruct (pred r0).
  - intros [= ->]. eauto.
  - exact IH.
Qed.

(** An UPDATE that does not touch the columns a query looks at. *)
Hypothesis set_pred : forall r, pred (set r) = pred r.

Lemma findOne_update rows :
  findOne pred (update where_ set rows) =
  option_map (fun r => if where_ r then set r else r) (findOne pred rows).
Proof.
  unfold findOne, update. induction rows as [|r rows IH]; simpl; [reflexivity|].
  destruct (where_ r) eqn:W; rewrite ?set_pred; destruct (pred r); simpl;
    rewrite ?W; auto.
Qed.

Lemma findAll_update rows :
  findAll pred (update where_ set rows) = update where_ set (findAll pred rows).
Proof.
  unfold findAll, update. induction rows as [|r rows IH]; simpl; [reflexivity|].
  destruct (where_ r) eqn:W; rewrite ?set_pred; destruct (pred r); simpl;
    rewrite ?W, IH; reflexivity.
Qed.

Lemma destroy_findAll rows : findAll pred (destroy pred rows) = [].
Proof.
  unfold findAll, destroy. induction rows as [|r rows IH]; simpl; [reflexivity|].
  destruct (pred r) eqn:P; simpl; rewrite ?P; exact IH.
Qed.

End Tables.

Lemma destroy_other {A} (gone kept : A -> bool) rows :
  (forall r, kept r = true -> gone r = false) ->
  findAll kept (destroy gone rows) = findAll kept rows.
Proof.
  intros H. unfold findAll, destroy.
  induction rows as [|r rows IH]; simpl; [reflexivity|].
  destruct (kept r) eqn:K.
  - rewrite (H _ K). simpl. rewrite K, IH. reflexivity.
  - destruct (gone r); simpl; rewrite ?K; exact IH.
Qed.

Lemma findOne_none {A} (pred : A -> bool) rows :
  (forall r, In r rows -> pred r = false) -> findOne pred rows = None.
Proof.
  unfold findOne. induction rows as [|r rows IH]; simpl; intros H; [reflexivity|].
  rewrite (H r (or_introl eq_refl)). apply IH. intros r' Hr'. apply H. now right.
Qed.

(** ** The test-suite scenarios, run on the model *)

Example scenario_cart_after_add :
  CartItems shopWithCart = [mkCartItem 1 1 1 2 (Some 39999)].
Proof. reflexivity. Qed.

Example scenario_order_placed :
  Orders shopWithOrder = [mkOrder 1 2 79998 "pending"] /\
  OrderItems shopWithOrder = [mkOrderItem 1 1 1 2 39999] /\
  option_map p_stock (Product_findByPk 1 shopWithOrder) = Some 13 /\
  CartItems shopWithOrder = [].
Proof. vm_compute. repeat split; reflexivity. Qed.

Example scenario_empty_cart :
  fst (placeOrder 2 shopWithOrder) = failure 400 "Cart is empty".
Proof. vm_compute. reflexivity. Qed.

Example scenario_stock_reduced_before_checkout :
  let db := snd (updateProduct 2 reduceStock NoFile (snd (addToCart 2 2 2 shop))) in
  placeOrder 2 db =
  (failure 400 "Insufficient stock for Almost Gone. Only 1 available", db).
Proof. vm_compute. reflexivity. Qed.

(** ** Observed behaviour, run on the model *)

(** Doubles: 0.1 + 0.2 is 0.30000000000000004, not the double of 0.3, and
    toFixed(2) prints it as 0.30. *)
Example double_sum_is_rounded :
  plus (parseFloat (Some 10)) (parseFloat (Some 20)) =
    Finite (1351079888211149 # 4503599627370496) /\
  parseFloat (Some 30) = Finite (5404319552844595 # 18014398509481984) /\
  toFixed2 (plus (parseFloat (Some 10)) (parseFloat (Some 20))) = Some 30.
Proof. vm_compute. repeat split; reflexivity. Qed.

(** A quantity of 0, and one beyond INTEGER, for a product without a line:
    the create throws, the answer is 500, no line is written; the cart made
    for the request stays. *)
Example addToCart_quantity_refused :
  fst (addToCart 3 2 0 shop) = failure 500 "Error adding item to cart" /\
  fst (addToCart 3 2 2147483648 shop) = failure 500 "Error adding item to cart" /\
  CartItems (snd (addToCart 3 2 0 shop)) = [] /\
  Carts (snd (addToCart 3 2 0 shop)) = [mkCart 1 3].
Proof. vm_compute. repeat split; reflexivity. Qed.

(** A categoryId of 0 skips the category lookup and breaks the foreign key:
    500, nothing written. *)
Example updateProduct_category_zero :
  updateProduct 1 (mkProductBody None None None None (Some 0)) NoFile shop =
  (failure 500 "Error updating product", shop).
Proof. vm_compute. reflexivity. Qed.

(** Two checkouts that both read their carts before either decrements: both
    pass the stock check against the 2 in stock, and the decrements leave
    -2.  One after the other, the second is refused. *)
Example interleaved_checkouts_oversell :
  match placeOrder_loop (map (includeProduct shopRace) (linesOf 2 shopRace))
                        (Finite 0) [] shopRace with
  | LoopDone _ _ tx1 =>
      match placeOrder_loop (map (includeProduct shopRace) (linesOf 3 shopRace))
                            (Finite 0) [] tx1 with
      | LoopDone _ _ tx2 => option_map p_stock (Product_findByPk 2 tx2) = Some (-2)
      | _ => False
      end
  | _ => False
  end /\
  status (fst (placeOrder 2 shopRace)) = 201 /\
  fst (placeOrder 3 (snd (placeOrder 2 shopRace))) =
    failure 400 "Insufficient stock for Almost Gone. Only 0 available".
Proof. vm_compute. repeat split; reflexivity. Qed.

(** ** Order ledger *)

Lemma validStatus_spec s :
  validStatus s = true <-> s = "pending" \/ s = "completed" \/ s = "cancelled".
Proof.
  unfold validStatus. simpl. rewrite !orb_true_iff, !String.eqb_eq.
  intuition discriminate.
Qed.

Lemma outsideStatuses_invalid s :
  outsideStatuses (Some s) -> validStatus s = false.
Proof.
  intros H. destruct (validStatus s) eqn:V; [|reflexivity].
  apply validStatus_spec in V. destruct (H s eq_refl) as (H1 & H2 & H3).
  intuition congruence.
Qed.

Lemma updateOrderStatus_invalid id status_ db :
  outsideStatuses status_ ->
  updateOrderStatus id status_ db =
  (failure 400 "Invalid status. Must be: pending, completed, or cancelled", db).
Proof.
  intros H. unfold updateOrderStatus. destruct status_ as [s|]; [|reflexivity].
  rewrite (outsideStatuses_invalid s H). reflexivity.
Qed.

(** C8. getOrderById(B, id) answers the same thing when the order [id]
    exists but is owned by another customer A as when no order [id] exists
    at all: in both databases the response is the one 404 "Order not found",
    equal in status, success flag, message and payload. *)
Theorem getOrderById_not_mine_is_not_found
  (A B id : Z) (order : Order) (db1 db2 : DB) :
  In order (Orders db1) -> o_id order = id -> o_userId order = A -> A <> B ->
  (forall o, In o (Orders db1) -> o_id o = id -> o = order) ->
  Order_findByPk id db2 = None ->
  getOrderById B id db1 = getOrderById B id db2 /\
  getOrderById B id db1 = failure 404 "Order not found".
Proof.
  intros Hin Hid Hown Hneq Hpk Hmissing.
  assert (E1 : getOrderById B id db1 = failure 404 "Order not found").
  { unfold getOrderById. rewrite findOne_none; [reflexivity|].
    intros o Ho. destruct (o_id o =? id) eqn:E; [|reflexivity]. simpl.
    apply Z.eqb_eq in E. rewrite (Hpk o Ho E), Hown. apply Z.eqb_neq, Hneq. }
  assert (E2 : getOrderById B id db2 = failure 404 "Order not found").
  { unfold getOrderById. rewrite findOne_none; [reflexivity|].
    intros o Ho. unfold Order_findByPk, findOne in Hmissing.
    apply (find_none _ _ Hmissing) in Ho. rewrite Ho. reflexivity. }
  split; congruence.
Qed.

Lemma getOrderById_not_mine_is_not_found_witness :
  getOrderById 3 1 shopWithOrder = getOrderById 3 1 shop /\
  getOrderById 3 1 shopWithOrder = failure 404 "Order not found".
Proof.
  apply (getOrderById_not_mine_is_not_found 2 3 1 (mkOrder 1 2 79998 "pending")).
  - vm_compute. left. reflexivity.
  - reflexivity.
  - reflexivity.
  - lia.
  - vm_compute. intros o [<-|[]] _. reflexivity.
  - reflexivity.
Defined.




(** C10. updateOrderStatus checks the status before it looks the order up:
    with a status outside {pending, completed, cancelled} the response is the
    400 "Invalid status" one whatever the order table holds, in particular
    when no order has the given id, and it is never the 404. *)
Theorem updateOrderStatus_validates_first
  (id : Z) (status_ : option string) (db : DB) :
  outsideStatuses status_ ->
  fst (updateOrderStatus id status_ db) =
    failure 400 "Invalid status. Must be: pending, completed, or cancelled" /\
  (Order_findByPk id db = None ->
   status (fst (updateOrderStatus id status_ db)) <> 404).
Proof.
  intros H. rewrite updateOrderStatus_invalid by assumption.
  split; [reflexivity|]. intros _. simpl. discriminate.
Qed.

Lemma updateOrderStatus_validates_first_witness :
  Order_findByPk 9999 shopWithOrder = None /\
  fst (updateOrderStatus 9999 (Some "invalid-status") shopWithOrder) =
    failure 400 "Invalid status. Must be: pending, completed, or cancelled".
Proof.
  split; [reflexivity|].
  apply (updateOrderStatus_validates_first 9999 (Some "invalid-status")
           shopWithOrder).
  intros s [= <-]. repeat split; discriminate.
Defined.

(** ** Selection manager *)

Lemma findAll_findAll {A} (p1 p2 : A -> bool) rows :
  findAll p2 (findAll p1 rows) = findAll (fun r => p1 r && p2 r) rows.
Proof.
  unfold findAll. induction rows as [|r rows IH]; simpl; [reflexivity|].
  destruct (p1 r); simpl; [destruct (p2 r)|]; rewrite IH; reflexivity.
Qed.

Lemma linesFor_itemsOf productId cartId db :
  linesFor productId (itemsOf cartId db) =
  findAll (lineWhere cartId productId) (CartItems db).
Proof. unfold linesFor, itemsOf. apply findAll_findAll. Qed.

Lemma Cart_findOne_userId userId db cart :
  Cart_findOne userId db = Some cart -> cart_userId cart = userId.
Proof. intros H. apply findOne_In in H. apply Z.eqb_eq, H. Qed.

(** Get-or-create leaves every table but Carts alone and yields the cart
    that later lookups find; a cart made on the spot has no lines. *)
Lemma getOrCreateCart_spec userId db :
  cartIdsIssued db ->
  let cart := fst (getOrCreateCart userId db) in
  let db1 := snd (getOrCreateCart userId db) in
  Cart_findOne userId db1 = Some cart /\
  CartItems db1 = CartItems db /\
  Products db1 = Products db /\
  seqCartItems db1 = seqCartItems db /\
  itemsOf (cart_id cart) db1 = linesOf userId db.
Proof.
  intros Hfk. unfold getOrCreateCart, linesOf.
  destruct (Cart_findOne userId db) as [cart|] eqn:E; simpl.
  - rewrite E. repeat split; reflexivity.
  - repeat split; try reflexivity.
    + unfold Cart_findOne in *. simpl. rewrite findOne_app, E. simpl.
      rewrite Z.eqb_refl. reflexivity.
    + unfold itemsOf. simpl. apply findOne_None_findAll, findOne_none.
      intros i Hi. apply Z.eqb_neq. specialize (Hfk i Hi). lia.
Qed.

Lemma CartItem_create_valid cartId productId quantity priceAtAdd db :
  1 <= quantity <= 2147483647 ->
  CartItem_create cartId productId quantity priceAtAdd db =
  Some (mkCartItem (seqCartItems db) cartId productId quantity (Some priceAtAdd),
        mkDB (Categories db) (Products db) (Carts db)
             (CartItems db ++
              [mkCartItem (seqCartItems db) cartId productId quantity
                          (Some priceAtAdd)])
             (Orders db) (OrderItems db)
             (seqCarts db) (seqCartItems db + 1) (seqOrders db)
             (seqOrderItems db)).
Proof.
  intros [H1 H2]. unfold CartItem_create.
  rewrite (proj2 (Z.leb_le _ _) H1), (proj2 (Z.leb_le _ _) H2). reflexivity.
Qed.

(** addToCart without an existing line, for a quantity the column admits: the
    line is created with the requested quantity and the product's current
    price; the stock plays no part. *)
Lemma addToCart_creates_line userId productId quantity db product :
  Product_findByPk productId db = Some product ->
  cartIdsIssued db ->
  linesFor productId (linesOf userId db) = [] ->
  1 <= quantity <= 2147483647 ->
  let db1 := snd (addToCart userId productId quantity db) in
  status (fst (addToCart userId productId quantity db)) = 200 /\
  Products db1 = Products db /\
  exists cart,
    Cart_findOne userId db1 = Some cart /\
    linesFor productId (itemsOf (cart_id cart) db1) =
      [mkCartItem (seqCartItems db) (cart_id cart) productId quantity
                  (Some (p_price product))].
Proof.
  intros Hp Hfk Hnone Hq. unfold addToCart. rewrite Hp.
  pose proof (getOrCreateCart_spec userId db Hfk) as (Hc & Hi & Hps & Hseq & Hl).
  destruct (getOrCreateCart userId db) as [cart db0]. simpl in *.
  assert (Hfind : findAll (lineWhere (cart_id cart) productId) (CartItems db0) = []).
  { rewrite <- linesFor_itemsOf, Hl. exact Hnone. }
  destruct (findOne (lineWhere (cart_id cart) productId) (CartItems db0))
    as [line|] eqn:E.
  { apply findOne_head_findAll in E. destruct E as [rest E]. congruence. }
  rewrite (CartItem_create_valid _ _ _ _ _ Hq).
  simpl. repeat split; [exact Hps|].
  exists cart. split; [exact Hc|].
  rewrite linesFor_itemsOf. simpl. rewrite findAll_app, Hfind. simpl.
  unfold lineWhere. simpl. rewrite !Z.eqb_refl, Hseq. reflexivity.
Qed.

(** addToCart on an existing line: the quantities add up if the stock
    allows, and a price that is present is kept. *)
Lemma addToCart_merges_line userId productId quantity db product cart line :
  Product_findByPk productId db = Some product ->
  Cart_findOne userId db = Some cart ->
  linesFor productId (itemsOf (cart_id cart) db) = [line] ->
  (ci_quantity line + quantity <= p_stock product ->
   let db1 := snd (addToCart userId productId quantity db) in
   status (fst (addToCart userId productId quantity db)) = 200 /\
   Carts db1 = Carts db /\
   linesFor productId (itemsOf (cart_id cart) db1) =
     [mkCartItem (ci_id line) (ci_cartId line) (ci_productId line)
                 (ci_quantity line + quantity)
                 (match ci_priceAtAdd line with
                  | Some price => Some price
                  | None => Some (p_price product)
                  end)]) /\
  (p_stock product < ci_quantity line + quantity ->
   addToCart userId productId quantity db =
   (failure 400
      ("Cannot add more items. Only " ++ string_of_Z (p_stock product)
       ++ " items available")%string,
    db)).
Proof.
  intros Hp Hc Hl. unfold addToCart, getOrCreateCart. rewrite Hp, Hc.
  rewrite linesFor_itemsOf in Hl.
  rewrite (findAll_single_findOne _ _ _ Hl).
  split; intros Hq.
  - destruct (p_stock product <? ci_quantity line + quantity) eqn:E;
      [apply Z.ltb_lt in E; lia|].
    simpl. repeat split.
    rewrite linesFor_itemsOf. unfold CartItem_save. simpl.
    rewrite findAll_update by reflexivity. rewrite Hl. simpl.
    rewrite Z.eqb_refl. destruct (ci_priceAtAdd line); reflexivity.
  - destruct (p_stock product <? ci_quantity line + quantity) eqn:E;
      [reflexivity | apply Z.ltb_ge in E; lia].
Qed.

(** ** Catalog updates do not reach carts *)

Lemma updateProduct_frame id body file db :
  let db' := snd (updateProduct id body file db) in
  Carts db' = Carts db /\ CartItems db' = CartItems db /\
  Orders db' = Orders db /\ OrderItems db' = OrderItems db.
Proof.
  unfold updateProduct.
  destruct (Product_findByPk id db); [|simpl; auto].
  destruct (match b_categoryId body with Some _ => _ | None => _ end);
    [simpl; auto|].
  destruct file; [| |simpl; auto];
    destruct (match b_categoryId body with Some _ => _ | None => _ end);
    simpl; auto.
Qed.

Lemma updateProduct_keeps_products id body file db productId product :
  Product_findByPk productId db = Some product ->
  exists product',
    Product_findByPk productId (snd (updateProduct id body file db)) =
    Some product'.
Proof.
  intros Hp. unfold updateProduct.
  destruct (Product_findByPk id db); [|simpl; eauto].
  destruct (match b_categoryId body with Some _ => _ | None => _ end);
    [simpl; eauto|].
  destruct file; [| |simpl; eauto];
    (destruct (match b_categoryId body with Some _ => _ | None => _ end);
     [simpl; eauto|]);
    unfold Product_findByPk, Product_update in *; simpl;
    rewrite findOne_update by reflexivity; rewrite Hp; simpl; eauto.
Qed.

Lemma updateProducts_frame requests db :
  let db' := updateProducts requests db in
  Carts db' = Carts db /\ CartItems db' = CartItems db /\
  Orders db' = Orders db /\ OrderItems db' = OrderItems db.
Proof.
  revert db. induction requests as [|[[id body] file] requests IH]; intros db.
  - simpl. auto.
  - pose proof (IH (snd (updateProduct id body file db))) as (I1 & I2 & I3 & I4).
    pose proof (updateProduct_frame id body file db) as (F1 & F2 & F3 & F4).
    change (updateProducts ((id, body, file) :: requests) db)
      with (updateProducts requests (snd (updateProduct id body file db))).
    cbv zeta. repeat split; congruence.
Qed.

Lemma updateProducts_keeps_products requests db productId product :
  Product_findByPk productId db = Some product ->
  exists product',
    Product_findByPk productId (updateProducts requests db) = Some product'.
Proof.
  revert db product.
  induction requests as [|[[id body] file] requests IH]; intros db product Hp.
  - simpl. eauto.
  - destruct (updateProduct_keeps_products id body file db _ _ Hp) as [p' Hp'].
    exact (IH _ _ Hp').
Qed.

(** C3 (what the code does). addToCart for a product the selection has no
    line for never looks at the stock: customer 3 asks for 50 of a product
    with 2 in stock and gets a 200 and a line of 50 at the current price. *)
Theorem addToCart_new_line_over_stock :
  option_map p_stock (Product_findByPk 2 shop) = Some 2 /\
  linesFor 2 (linesOf 3 shop) = [] /\
  status (fst (addToCart 3 2 50 shop)) = 200 /\
  CartItems (snd (addToCart 3 2 50 shop)) = [mkCartItem 1 1 2 50 (Some 4999)].
Proof. vm_compute. repeat split; reflexivity. Qed.

(** C5. Two adds of the same product, with any catalog updates in between.
    The selection had no line for the product, and the quantities are
    quantities the route and the line's column admit: q1 between 1 and
    2147483647, q2 at least 1.  The first add succeeds.  If q1 + q2 is within
    the stock seen by the second add, the second add succeeds and the
    selection has one line for the product, of quantity q1 + q2 and with the
    price the product had at the first add.  If q1 + q2 is above that stock,
    the second add is refused with the 400 that names the stock, and the one
    line still has quantity q1. *)
Theorem addToCart_twice
  (userId productId q1 q2 : Z) (requests : list (Z * ProductBody * Upload))
  (db : DB) (product : Product) :
  Product_findByPk productId db = Some product ->
  cartIdsIssued db ->
  linesFor productId (linesOf userId db) = [] ->
  1 <= q1 <= 2147483647 ->
  1 <= q2 ->
  let first := addToCart userId productId q1 db in
  let db2 := updateProducts requests (snd first) in
  let second := addToCart userId productId q2 db2 in
  status (fst first) = 200 /\
  exists product2,
    Product_findByPk productId db2 = Some product2 /\
    (q1 + q2 <= p_stock product2 ->
     status (fst second) = 200 /\
     exists line,
       linesFor productId (linesOf userId (snd second)) = [line] /\
       ci_quantity line = q1 + q2 /\
       ci_priceAtAdd line = Some (p_price product)) /\
    (p_stock product2 < q1 + q2 ->
     fst second =
       failure 400
         ("Cannot add more items. Only " ++ string_of_Z (p_stock product2)
          ++ " items available")%string /\
     exists line,
       linesFor productId (linesOf userId (snd second)) = [line] /\
       ci_quantity line = q1 /\
       ci_priceAtAdd line = Some (p_price product)).
Proof.
  intros Hp Hfk Hnone Hq1 Hq2 first db2 second.
  destruct (addToCart_creates_line userId productId q1 db product Hp Hfk Hnone
              Hq1) as (Hst & Hps & cart & Hc & Hl).
  fold first in Hst, Hps, Hc, Hl.
  split; [exact Hst|].
  assert (Hp1 : Product_findByPk productId (snd first) = Some product).
  { unfold Product_findByPk in *. rewrite Hps. exact Hp. }
  destruct (updateProducts_keeps_products requests _ _ _ Hp1) as [product2 Hp2].
  fold db2 in Hp2.
  destruct (updateProducts_frame requests (snd first)) as (Fc & Fi & _).
  fold db2 in Fc, Fi.
  assert (Hc2 : Cart_findOne userId db2 = Some cart).
  { unfold Cart_findOne in *. rewrite Fc. exact Hc. }
  assert (Hl2 : linesFor productId (itemsOf (cart_id cart) db2) =
                [mkCartItem (seqCartItems db) (cart_id cart) productId q1
                            (Some (p_price product))]).
  { unfold itemsOf in *. rewrite Fi. exact Hl. }
  destruct (addToCart_merges_line userId productId q2 db2 product2 cart _
              Hp2 Hc2 Hl2) as [Hok Hfail].
  exists product2. split; [exact Hp2|].
  cbn [ci_quantity ci_priceAtAdd ci_id ci_cartId ci_productId] in Hok, Hfail.
  split; intros Hq.
  - destruct (Hok Hq) as (S2 & C2 & L2). fold second in S2, C2, L2.
    split; [exact S2|].
    assert (Hc3 : Cart_findOne userId (snd second) = Some cart).
    { unfold Cart_findOne. rewrite C2. exact Hc2. }
    eexists. split.
    + unfold linesOf. rewrite Hc3. exact L2.
    + split; reflexivity.
  - specialize (Hfail Hq). fold second in Hfail. rewrite Hfail.
    split; [reflexivity|]. eexists. split.
    + cbn [snd]. unfold linesOf. rewrite Hc2. exact Hl2.
    + split; reflexivity.
Qed.

Lemma addToCart_twice_witness :
  (exists line,
     linesFor 1 (linesOf 2 (snd (addToCart 2 1 3
        (updateProducts [(1, raisePrice, NoFile)] (snd (addToCart 2 1 2 shop))))))
       = [line] /\
     ci_quantity line = 5 /\ ci_priceAtAdd line = Some 39999) /\
  fst (addToCart 2 1 20
        (updateProducts [(1, raisePrice, NoFile)] (snd (addToCart 2 1 2 shop))))
    = failure 400 "Cannot add more items. Only 13 items available".
Proof.
  assert (Hfk : cartIdsIssued shop) by (intros i []).
  split.
  - destruct (addToCart_twice 2 1 2 3 [(1, raisePrice, NoFile)] shop tablet
                eq_refl Hfk eq_refl ltac:(lia) ltac:(lia))
      as (_ & product2 & Hp2 & Hok & _).
    vm_compute in Hp2. injection Hp2 as <-.
    apply Hok. simpl. lia.
  - destruct (addToCart_twice 2 1 2 20 [(1, raisePrice, NoFile)] shop tablet
                eq_refl Hfk eq_refl ltac:(lia) ltac:(lia))
      as (_ & product2 & Hp2 & _ & Hfail).
    vm_compute in Hp2. injection Hp2 as <-.
    apply Hfail. simpl. lia.
Defined.




(** C7 (as stated) fails: customer 3 has no cart in [shop], and clearCart
    answers 404 "Cart not found" instead of succeeding. *)
Lemma clearCart_without_cart_fails :
  Cart_findOne 3 shop = None /\
  clearCart 3 shop = (failure 404 "Cart not found", shop) /\
  status (fst (clearCart 3 shop)) <> 200.
Proof. repeat split. discriminate. Qed.

(** C7 (amended). When the customer has a cart, clearCart succeeds and
    deletes all its lines, leaving the lines of other carts and the other
    tables alone.  When the customer has no cart, clearCart changes nothing
    and answers 404 "Cart not found". *)
Theorem clearCart_spec (userId : Z) (db : DB) :
  (forall cart, Cart_findOne userId db = Some cart ->
     let db' := snd (clearCart userId db) in
     fst (clearCart userId db) =
       mkResponse 200 true (Some "Cart cleared successfully") None /\
     linesOf userId db' = [] /\
     (forall cartId, cartId <> cart_id cart ->
                     itemsOf cartId db' = itemsOf cartId db) /\
     Carts db' = Carts db /\ Products db' = Products db /\
     Orders db' = Orders db /\ OrderItems db' = OrderItems db) /\
  (Cart_findOne userId db = None ->
   clearCart userId db = (failure 404 "Cart not found", db)).
Proof.
  unfold clearCart. split.
  - intros cart Hc. rewrite Hc. cbn [fst snd].
    split; [reflexivity|]. split; [|split; [|repeat split]].
    + unfold linesOf, Cart_findOne in *. cbn [Carts set_CartItems]. rewrite Hc.
      unfold itemsOf. cbn [CartItems]. apply destroy_findAll.
    + intros cartId Hne. unfold itemsOf. cbn [CartItems set_CartItems].
      apply destroy_other. intros i Hi. apply Z.eqb_eq in Hi.
      apply Z.eqb_neq. congruence.
  - intros ->. reflexivity.
Qed.

Lemma clearCart_spec_witness :
  linesOf 2 (snd (clearCart 2 shopWithCart)) = [] /\
  clearCart 3 shopWithCart = (failure 404 "Cart not found", shopWithCart).
Proof.
  split.
  - apply (proj1 (clearCart_spec 2 shopWithCart) (mkCart 1 2) eq_refl).
  - apply (proj2 (clearCart_spec 3 shopWithCart) eq_refl).
Defined.

(** ** Checkout: the loop *)

Lemma placeOrder_loop_done items :
  forall total drafts tx total' drafts' tx',
    placeOrder_loop items total drafts tx = LoopDone total' drafts' tx' ->
    total' = fold_left addLineTotal items total /\
    drafts' = drafts ++ map (fun item => draftOf (fst item)) items /\
    tx' = fold_left decrementStock items tx.
Proof.
  induction items as [|[item [product|]] items IH]; simpl;
    intros total drafts tx total' drafts' tx' H.
  - injection H as <- <- <-. rewrite app_nil_r. auto.
  - destruct (p_stock product <? ci_quantity item); [discriminate|].
    apply IH in H. destruct H as (-> & -> & ->).
    rewrite <- app_assoc. auto.
  - discriminate.
Qed.


Lemma placeOrder_loop_insufficient items :
  forall total drafts tx,
    Forall (fun item => snd item <> None) items ->
    Exists (fun item => exists p, snd item = Some p /\
                                  p_stock p < ci_quantity (fst item)) items ->
    exists item p tx',
      In (item, Some p) items /\ p_stock p < ci_quantity item /\
      placeOrder_loop items total drafts tx = LoopInsufficient p tx'.
Proof.
  induction items as [|[item op] items IH]; intros total drafts tx Hfk Hex.
  - inversion Hex.
  - inversion Hfk as [|? ? Hsome Hfk']; subst. simpl in Hsome.
    destruct op as [product|]; [|congruence]. simpl.
    destruct (p_stock product <? ci_quantity item) eqn:E.
    + apply Z.ltb_lt in E. exists item, product, tx. auto.
    + apply Z.ltb_ge in E.
      assert (Hex' : Exists (fun item => exists p, snd item = Some p /\
                               p_stock p < ci_quantity (fst item)) items).
      { inversion Hex as [? ? (p & Hp & Hlt)|]; subst; [|assumption].
        simpl in Hp, Hlt. injection Hp as ->. lia. }
      destruct (IH (plus total (lineTotal item)) (drafts ++ [draftOf item])
                   (Product_decrement product (ci_quantity item) tx)
                   Hfk' Hex') as (item' & p & tx' & Hin & Hlt & Hloop).
      exists item', p, tx'. auto.
Qed.

(** The decrements touch the Products table only. *)
Lemma decrementStock_frame items :
  forall tx,
    let tx' := fold_left decrementStock items tx in
    Categories tx' = Categories tx /\ Carts tx' = Carts tx /\
    CartItems tx' = CartItems tx /\ Orders tx' = Orders tx /\
    OrderItems tx' = OrderItems tx /\ seqOrders tx' = seqOrders tx /\
    seqOrderItems tx' = seqOrderItems tx /\ seqCarts tx' = seqCarts tx /\
    seqCartItems tx' = seqCartItems tx.
Proof.
  induction items as [|[item op] items IH]; intros tx; simpl.
  - repeat split.
  - specialize (IH (decrementStock tx (item, op))). simpl in IH.
    destruct IH as (-> & -> & -> & -> & -> & -> & -> & -> & ->).
    unfold decrementStock. simpl. destruct op; repeat split.
Qed.

(** Where the loop stops, it has touched neither a sequence nor a table
    other than Products. *)
Lemma placeOrder_loop_frame items :
  forall total drafts tx,
    let tx' := loopTx (placeOrder_loop items total drafts tx) in
    Categories tx' = Categories tx /\ Carts tx' = Carts tx /\
    CartItems tx' = CartItems tx /\ Orders tx' = Orders tx /\
    OrderItems tx' = OrderItems tx /\
    seqCarts tx' = seqCarts tx /\ seqCartItems tx' = seqCartItems tx /\
    seqOrders tx' = seqOrders tx /\ seqOrderItems tx' = seqOrderItems tx.
Proof.
  induction items as [|[item [product|]] items IH]; intros total drafts tx;
    simpl; [repeat split | | repeat split].
  destruct (p_stock product <? ci_quantity item); [simpl; repeat split|].
  specialize (IH (plus total (lineTotal item)) (drafts ++ [draftOf item])
                 (Product_decrement product (ci_quantity item) tx)).
  simpl in IH. exact IH.
Qed.

(** A rollback of a body that took no key gives the database back. *)
Lemma rollback_same db tx :
  seqCarts tx = seqCarts db -> seqCartItems tx = seqCartItems db ->
  seqOrders tx = seqOrders db -> seqOrderItems tx = seqOrderItems db ->
  rollback db tx = db.
Proof.
  intros H1 H2 H3 H4. unfold rollback. rewrite H1, H2, H3, H4.
  destruct db; reflexivity.
Qed.

Lemma orderedQuantity_cons productId l lines :
  orderedQuantity productId (l :: lines) =
  (if ci_productId l =? productId then ci_quantity l else 0)
  + orderedQuantity productId lines.
Proof.
  unfold orderedQuantity, linesFor. simpl.
  destruct (ci_productId l =? productId); reflexivity.
Qed.

Lemma Product_decrement_lookup productId product by_ tx p :
  Product_findByPk productId tx = Some p ->
  exists p',
    Product_findByPk productId (Product_decrement product by_ tx) = Some p' /\
    p_stock p' = p_stock p - (if p_id product =? productId then by_ else 0) /\
    p_price p' = p_price p /\ p_name p' = p_name p.
Proof.
  intros Hp. unfold Product_findByPk, Product_decrement in *. simpl.
  rewrite findOne_update by reflexivity. rewrite Hp. simpl.
  apply findOne_In in Hp. destruct Hp as [_ Hid]. apply Z.eqb_eq in Hid.
  rewrite Hid, (Z.eqb_sym productId).
  destruct (p_id product =? productId); eexists; split; try reflexivity;
    simpl; repeat split; lia.
Qed.

(** After the loop a product has lost what the lines referencing it asked
    for, and nothing else about it has changed. *)
Lemma decrementStock_lookup items :
  forall tx productId p,
    Forall (fun item => exists q, snd item = Some q /\
                                  p_id q = ci_productId (fst item)) items ->
    Product_findByPk productId tx = Some p ->
    exists p',
      Product_findByPk productId (fold_left decrementStock items tx) = Some p' /\
      p_stock p' = p_stock p - orderedQuantity productId (map fst items) /\
      p_price p' = p_price p /\ p_name p' = p_name p.
Proof.
  induction items as [|[item op] items IH]; intros tx productId p Hall Hp.
  - simpl. exists p. unfold orderedQuantity. simpl. repeat split; [assumption|lia].
  - inversion Hall as [|? ? (q & Hq & Hid) Hall']; subst. simpl in Hq, Hid. subst op.
    destruct (Product_decrement_lookup productId q (ci_quantity item) tx p Hp)
      as (p1 & Hp1 & Hs1 & Hpr1 & Hn1).
    destruct (IH (Product_decrement q (ci_quantity item) tx) productId p1
                 Hall' Hp1) as (p' & Hp' & Hs' & Hpr' & Hn').
    exists p'. split; [exact Hp'|].
    simpl map. rewrite orderedQuantity_cons, <- Hid.
    repeat split; [lia | congruence | congruence].
Qed.

(** ** Checkout: the total

    The total is a sum of doubles.  Each operation is off by at most the
    unit roundoff, relatively; for a selection within the columns' ranges
    the sum stays less than half a cent away from the exact total, and
    toFixed(2) recovers it. *)

Section DoublePrecision.

Local Open Scope Q_scope.

Lemma pow2_pos k : 0 < 2 ^ k.
Proof. apply Qpower_0_lt. reflexivity. Qed.

Lemma pow2_plus a b : 2 ^ (a + b) == 2 ^ a * 2 ^ b.
Proof. apply Qpower_plus. discriminate. Qed.

Lemma pow2_inject k : (0 <= k)%Z -> inject_Z (2 ^ k) == 2 ^ k.
Proof. intros H. apply (Zpower_Qpower 2 k H). Qed.

Lemma exponentOf_le x : 0 < x -> 2 ^ exponentOf x <= x.
Proof.
  destruct x as [n d]. intros Hx. unfold exponentOf. cbn [Qnum Qden].
  destruct (Qle_bool (2 ^ (Z.log2 n - Z.log2 (Z.pos d))) (n # d)) eqn:E.
  - apply Qle_bool_iff. exact E.
  - clear E.
    assert (Hn : (0 < n)%Z).
    { unfold Qlt in Hx. simpl in Hx. lia. }
    pose proof (Z.log2_spec n Hn) as [Hln _].
    pose proof (Z.log2_spec (Z.pos d) (Pos2Z.is_pos d)) as [_ Hld].
    pose proof (Z.log2_nonneg n) as Hln0.
    pose proof (Z.log2_nonneg (Z.pos d)) as Hld0.
    replace (Z.log2 n - Z.log2 (Z.pos d) - 1)%Z
      with (Z.log2 n + - Z.succ (Z.log2 (Z.pos d)))%Z by lia.
    rewrite pow2_plus, Qpower_opp.
    apply Qle_shift_div_r; [apply pow2_pos|].
    rewrite <- (pow2_inject (Z.log2 n)) by lia.
    rewrite <- (pow2_inject (Z.succ (Z.log2 (Z.pos d)))) by lia.
    rewrite Zle_Qle in Hln. rewrite Zlt_Qlt in Hld.
    assert (Hnd : (n # d) * inject_Z (Z.pos d) == inject_Z n).
    { unfold Qeq, Qmult, inject_Z. simpl. lia. }
    assert (Hmono : (n # d) * inject_Z (Z.pos d)
                    <= (n # d) * inject_Z (2 ^ Z.succ (Z.log2 (Z.pos d)))).
    { apply Qmult_le_l; [exact Hx | apply Qlt_le_weak; exact Hld]. }
    rewrite Hnd in Hmono. apply (Qle_trans _ _ _ Hln Hmono).
Qed.

Lemma nearestEven_spec y :
  inject_Z (nearestEven y) - y <= 1 # 2 /\ y - inject_Z (nearestEven y) <= 1 # 2.
Proof.
  unfold nearestEven.
  pose proof (Qfloor_le y) as Hlo. pose proof (Qlt_floor y) as Hhi.
  rewrite inject_Z_plus in Hhi. change (inject_Z 1) with 1 in Hhi.
  destruct (y - inject_Z (Qfloor y) ?= 1 # 2) eqn:C.
  - apply Qeq_alt in C.
    destruct (Z.even (Qfloor y)); rewrite ?inject_Z_plus;
      change (inject_Z 1) with 1; lra.
  - apply Qlt_alt in C. lra.
  - apply Qgt_alt in C. rewrite inject_Z_plus. change (inject_Z 1) with 1. lra.
Qed.

Lemma round53pos_error x :
  2 ^ (-1022) <= x ->
  x - x * unitRoundoff <= round53pos x /\ round53pos x <= x + x * unitRoundoff.
Proof.
  intros Hx.
  assert (Hpos : 0 < x).
  { apply (Qlt_le_trans _ (2 ^ (-1022))); [apply pow2_pos | exact Hx]. }
  unfold round53pos. rewrite Qred_correct.
  set (s := Z.max (exponentOf x - 52) (-1074)).
  pose proof (pow2_pos s) as Hs.
  assert (Hulp : 2 ^ s <= x * (2 * unitRoundoff)).
  { destruct (Z.max_spec (exponentOf x - 52) (-1074)) as [[_ Hm]|[_ Hm]];
      fold s in Hm; rewrite Hm.
    - apply (Qle_trans _ (2 ^ (-1022) * (2 * unitRoundoff)));
        [vm_compute; discriminate|].
      apply Qmult_le_compat_r; [exact Hx | vm_compute; discriminate].
    - replace (exponentOf x - 52)%Z with (exponentOf x + -52)%Z by lia.
      rewrite pow2_plus.
      apply (Qle_trans _ (x * 2 ^ (-52))).
      + apply Qmult_le_compat_r; [apply exponentOf_le; exact Hpos|].
        vm_compute; discriminate.
      + apply Qmult_le_l; [exact Hpos | vm_compute; discriminate]. }
  destruct (nearestEven_spec (x / 2 ^ s)) as [H1 H2].
  set (m := inject_Z (nearestEven (x / 2 ^ s))) in *.
  assert (Hy : x / 2 ^ s * 2 ^ s == x).
  { field. intros H0. rewrite H0 in Hs. discriminate Hs. }
  assert (G1 : (m - x / 2 ^ s) * 2 ^ s <= (1 # 2) * 2 ^ s).
  { apply Qmult_le_compat_r; [exact H1 | apply Qlt_le_weak; exact Hs]. }
  assert (G2 : (x / 2 ^ s - m) * 2 ^ s <= (1 # 2) * 2 ^ s).
  { apply Qmult_le_compat_r; [exact H2 | apply Qlt_le_weak; exact Hs]. }
  assert (E1 : (m - x / 2 ^ s) * 2 ^ s == m * 2 ^ s - x) by (rewrite <- Hy at 2; ring).
  assert (E2 : (x / 2 ^ s - m) * 2 ^ s == x - m * 2 ^ s) by (rewrite <- Hy at 2; ring).
  rewrite E1 in G1. rewrite E2 in G2.
  split; lra.
Qed.

(** Rounding a positive number of ordinary size: finite, relative error u. *)
Lemma round53_error x :
  1 # 1024 <= x -> x <= 2 ^ 100 ->
  exists r, round53 x = Finite r /\
            x - x * unitRoundoff <= r /\ r <= x + x * unitRoundoff.
Proof.
  intros Hlo Hhi.
  assert (Hx : 2 ^ (-1022) <= x).
  { apply (Qle_trans _ (1 # 1024)); [vm_compute; discriminate | exact Hlo]. }
  destruct (round53pos_error x Hx) as [H1 H2].
  assert (Hpos : 0 < x) by lra.
  unfold round53. destruct x as [[|p|p] d]; try (exfalso; revert Hpos; unfold Qlt; simpl; lia).
  cbn [Qnum].
  assert (Hu : 0 <= unitRoundoff /\ unitRoundoff <= 1) by (split; vm_compute; discriminate).
  assert (Hxu : (Z.pos p # d) * unitRoundoff <= (Z.pos p # d) * 1).
  { apply Qmult_le_l; [exact Hpos | apply Hu]. }
  assert (Hbig : 2 ^ 100 * 2 < 2 ^ 1024) by (vm_compute; reflexivity).
  destruct (Qle_bool (2 ^ 1024) (round53pos (Z.pos p # d))) eqn:E.
  - apply Qle_bool_iff in E. exfalso. lra.
  - eexists. split; [reflexivity|]. split; assumption.
Qed.

Lemma round53_zero x : Qnum x = 0%Z -> round53 x = Finite 0.
Proof. intros H. unfold round53. rewrite H. reflexivity. Qed.

(** parseFloat of a column value of at least one cent. *)
Lemma parseFloat_error c :
  (1 <= c)%Z -> (c <= 10 ^ 10)%Z ->
  exists p, parseFloat (Some c) = Finite p /\
            amount c - amount c * unitRoundoff <= p /\
            p <= amount c + amount c * unitRoundoff.
Proof.
  intros Hlo Hhi. unfold parseFloat.
  assert (E : c # 100 == amount c).
  { unfold amount, Qeq, Qmult, inject_Z. simpl. lia. }
  rewrite Zle_Qle in Hlo, Hhi.
  destruct (round53_error (c # 100)) as (p & Hp & H1 & H2).
  - rewrite E. unfold amount. change (inject_Z 1) with 1 in Hlo. lra.
  - rewrite E. unfold amount.
    apply (Qle_trans _ (inject_Z (10 ^ 10) * (1 # 100))); [lra | vm_compute; discriminate].
  - exists p. split; [exact Hp|]. rewrite E in H1, H2. split; assumption.
Qed.

Lemma amount_plus a b : amount (a + b) == amount a + amount b.
Proof. unfold amount. rewrite inject_Z_plus. ring. Qed.

Lemma amount_mult c q : amount (c * q) == amount c * inject_Z q.
Proof. unfold amount. rewrite inject_Z_mult. ring. Qed.

Lemma amount_le a b : (a <= b)%Z -> amount a <= amount b.
Proof. intros H. unfold amount. rewrite Zle_Qle in H. lra. Qed.

Lemma ofInteger_exact q :
  (1 <= q)%Z -> (q <= 2147483647)%Z -> ofInteger q = Finite (inject_Z q).
Proof.
  intros H1 H2. unfold ofInteger.
  assert (H : (Z.abs q <=? 2 ^ 53)%Z = true) by (apply Z.leb_le; lia).
  rewrite H. reflexivity.
Qed.

Lemma Qnum_zero_eq x : Qnum x = 0%Z -> x == 0.
Proof. destruct x as [n d]. simpl. intros ->. reflexivity. Qed.

(** One line total: finite, within three roundings of the exact product. *)
Lemma lineTotal_error c q :
  (0 <= c)%Z -> (1 <= q)%Z -> (q <= 2147483647)%Z -> (c * q <= 10 ^ 10)%Z ->
  exists t, times (parseFloat (Some c)) (ofInteger q) = Finite t /\
            (c = 0%Z -> Qnum t = 0%Z) /\
            amount (c * q) - amount (c * q) * (3 * unitRoundoff) <= t /\
            t <= amount (c * q) + amount (c * q) * (3 * unitRoundoff).
Proof.
  intros Hc Hq1 Hq2 Hcq. rewrite (ofInteger_exact q Hq1 Hq2).
  destruct (Z.eq_dec c 0) as [->|Hc0].
  - exists 0. split; [reflexivity|]. split; [reflexivity|].
    change (0 * q)%Z with 0%Z. unfold amount. split; vm_compute; discriminate.
  - assert (Hc1 : (1 <= c)%Z) by lia.
    assert (Hc10 : (c <= 10 ^ 10)%Z) by nia.
    destruct (parseFloat_error c Hc1 Hc10) as (p & Hp & Hp1 & Hp2).
    rewrite Hp. unfold times.
    pose proof (amount_mult c q) as Hv.
    pose proof (amount_le _ _ Hcq) as Hv10.
    pose proof (amount_le _ _ Hc1) as Ha1.
    assert (HQ : 1 <= inject_Z q) by (rewrite Zle_Qle in Hq1; exact Hq1).
    assert (HQ0 : 0 <= inject_Z q) by lra.
    assert (Ha10 : amount (10 ^ 10) == 100000000) by reflexivity.
    assert (Ha : amount 1 == 1 # 100) by reflexivity.
    assert (G1 : (amount c - amount c * unitRoundoff) * inject_Z q <= p * inject_Z q)
      by (apply Qmult_le_compat_r; assumption).
    assert (G2 : p * inject_Z q <= (amount c + amount c * unitRoundoff) * inject_Z q)
      by (apply Qmult_le_compat_r; assumption).
    assert (E1 : (amount c - amount c * unitRoundoff) * inject_Z q
                 == amount (c * q) - amount (c * q) * unitRoundoff)
      by (rewrite Hv; ring).
    assert (E2 : (amount c + amount c * unitRoundoff) * inject_Z q
                 == amount (c * q) + amount (c * q) * unitRoundoff)
      by (rewrite Hv; ring).
    rewrite E1 in G1. rewrite E2 in G2.
    assert (Hv1 : amount c * 1 <= amount c * inject_Z q).
    { apply Qmult_le_l; [lra | exact HQ]. }
    rewrite <- Hv in Hv1.
    set (v := amount (c * q)) in *. set (x := p * inject_Z q) in *.
    assert (Hv100 : v <= 100000000) by (rewrite <- Ha10; exact Hv10).
    assert (Hac : 1 # 100 <= amount c) by (rewrite <- Ha; exact Ha1).
    clear E1 E2 Hv Hp Hp1 Hp2 Ha Ha1 Ha10 Hv10. clearbody v x.
    unfold unitRoundoff in *.
    destruct (round53_error x) as (t & Ht & Ht1 & Ht2).
    + lra.
    + apply (Qle_trans _ 200000000); [lra | vm_compute; discriminate].
    + exists t. split; [exact Ht|]. split; [intros ->; lia|].
      unfold unitRoundoff in *. split; lra.
Qed.

Lemma spec_totalCents_priced l lines c :
  ci_priceAtAdd l = Some c ->
  spec_totalCents (l :: lines) = (c * ci_quantity l + spec_totalCents lines)%Z.
Proof. intros H. unfold spec_totalCents. simpl. rewrite H. reflexivity. Qed.

Lemma columnsValid_spec l :
  columnsValid l = true ->
  exists c, ci_priceAtAdd l = Some c /\ (0 <= c)%Z /\
            (1 <= ci_quantity l)%Z /\ (ci_quantity l <= 2147483647)%Z.
Proof.
  unfold columnsValid. destruct (ci_priceAtAdd l) as [c|]; [|discriminate].
  intros H. apply andb_prop in H. destruct H as [H H3].
  apply andb_prop in H. destruct H as [H1 H2].
  exists c. split; [reflexivity|]. lia.
Qed.

Lemma spec_totalCents_nonneg lines :
  forallb columnsValid lines = true -> (0 <= spec_totalCents lines)%Z.
Proof.
  induction lines as [|l lines IH]; intros H.
  - apply Z.le_refl.
  - simpl in H. apply andb_prop in H. destruct H as [Hl H].
    destruct (columnsValid_spec l Hl) as (c & Hc & H0 & H1 & H2).
    rewrite (spec_totalCents_priced l lines c Hc). specialize (IH H). nia.
Qed.

(** The running sum stays within [stepError] per line of the exact total. *)
Lemma addLineTotal_error (items : list (CartItem * option Product)) :
  forall (k V : Z) (s : Q),
    (0 <= k)%Z -> (0 <= V)%Z ->
    (V = 0%Z -> Qnum s = 0%Z) ->
    amount V - inject_Z k * stepError <= s ->
    s <= amount V + inject_Z k * stepError ->
    forallb columnsValid (map fst items) = true ->
    (k + Z.of_nat (List.length items) <= 100000)%Z ->
    (V + spec_totalCents (map fst items) <= 10 ^ 10)%Z ->
    exists s',
      fold_left addLineTotal items (Finite s) = Finite s' /\
      ((V + spec_totalCents (map fst items))%Z = 0%Z -> Qnum s' = 0%Z) /\
      amount (V + spec_totalCents (map fst items))
        - inject_Z (k + Z.of_nat (List.length items)) * stepError <= s' /\
      s' <= amount (V + spec_totalCents (map fst items))
            + inject_Z (k + Z.of_nat (List.length items)) * stepError.
Proof.
  induction items as [|[l op] items IH]; intros k V s Hk HV Hz Hlo Hhi Hvalid Hlen Htot.
  - exists s. simpl. rewrite !Z.add_0_r. auto.
  - cbn [map fst forallb] in Hvalid. apply andb_prop in Hvalid.
    destruct Hvalid as [Hl Hvalid].
    destruct (columnsValid_spec l Hl) as (c & Hc & Hc0 & Hq1 & Hq2).
    pose proof (spec_totalCents_nonneg _ Hvalid) as Hrest.
    cbn [map fst] in Htot |- *. rewrite (spec_totalCents_priced l _ c Hc) in Htot |- *.
    cbn [List.length] in Hlen |- *. rewrite Nat2Z.inj_succ in Hlen |- *.
    assert (Hcq0 : (0 <= c * ci_quantity l)%Z) by nia.
    assert (Hcq : (c * ci_quantity l <= 10 ^ 10)%Z) by lia.
    destruct (lineTotal_error c (ci_quantity l) Hc0 Hq1 Hq2 Hcq)
      as (t & Ht & Htz & Ht1 & Ht2).
    assert (Hstep : addLineTotal (Finite s) (l, op) = round53 (s + t)).
    { unfold addLineTotal, lineTotal. cbn [fst]. rewrite Hc, Ht. reflexivity. }
    cbn [fold_left]. rewrite Hstep.
    set (V' := (V + c * ci_quantity l)%Z).
    assert (HV' : (0 <= V')%Z) by (unfold V'; lia).
    assert (HV10 : (V' <= 10 ^ 10)%Z) by (unfold V'; lia).
    assert (Hk5 : inject_Z k <= 100000).
    { change 100000 with (inject_Z 100000). rewrite <- Zle_Qle. lia. }
    assert (Hk0 : 0 <= inject_Z k).
    { change 0 with (inject_Z 0). rewrite <- Zle_Qle. lia. }
    assert (Step : exists s1, round53 (s + t) = Finite s1 /\
                     (V' = 0%Z -> Qnum s1 = 0%Z) /\
                     amount V' - (inject_Z k + 1) * stepError <= s1 /\
                     s1 <= amount V' + (inject_Z k + 1) * stepError).
    { destruct (Z.eq_dec V' 0) as [E0|E0].
      - assert (V = 0%Z) by (unfold V' in E0; lia).
        assert (c = 0%Z) by (unfold V' in E0; nia).
        exists 0. split.
        + apply round53_zero.
          pose proof (Hz H) as Hs0. pose proof (Htz H0) as Ht0.
          destruct s as [sn sd], t as [tn td]. simpl in Hs0, Ht0. subst sn tn.
          reflexivity.
        + split; [reflexivity|]. rewrite E0.
          change (amount 0) with (0 * (1 # 100)).
          unfold stepError. clear - Hk0. set (K := inject_Z k) in *.
          clearbody K. split; lra.
      - assert (HV1 : (1 <= V')%Z) by lia.
        pose proof (amount_le _ _ HV1) as Ha1.
        pose proof (amount_le _ _ HV10) as Ha10.
        pose proof (amount_le _ _ Hcq) as Hv10.
        pose proof (amount_le _ _ Hcq0) as Hv0.
        pose proof (amount_plus V (c * ci_quantity l)) as Hsum. fold V' in Hsum.
        change (amount 1) with (1 * (1 # 100)) in Ha1.
        change (amount (10 ^ 10)) with (10000000000 * (1 # 100)) in Ha10, Hv10.
        change (amount 0) with (0 * (1 # 100)) in Hv0.
        set (A' := amount V') in *. set (A := amount V) in *.
        set (v := amount (c * ci_quantity l)) in *.
        unfold stepError, unitRoundoff in *.
        set (K := inject_Z k) in *.
        clearbody A A' v K.
        assert (B1 : 1 # 1024 <= s + t)
          by (clear - Hlo Hhi Ht1 Ht2 Ha1 Ha10 Hv10 Hv0 Hsum Hk5 Hk0; lra).
        assert (B2 : s + t <= 200000000)
          by (clear - Hlo Hhi Ht1 Ht2 Ha1 Ha10 Hv10 Hv0 Hsum Hk5 Hk0; lra).
        destruct (round53_error (s + t)) as (s1 & Hs1 & Hs1lo & Hs1hi).
        + exact B1.
        + apply (Qle_trans _ 200000000); [exact B2 | vm_compute; discriminate].
        + exists s1. split; [exact Hs1|]. split; [intros; lia|].
          unfold unitRoundoff in Hs1lo, Hs1hi.
          clear - Hlo Hhi Ht1 Ht2 Ha1 Ha10 Hv10 Hv0 Hsum Hk5 Hk0 Hs1lo Hs1hi B2.
          split; lra. }
    destruct Step as (s1 & Hs1 & Hz1 & Hlo1 & Hhi1). rewrite Hs1.
    change 1 with (inject_Z 1) in Hlo1, Hhi1.
    rewrite <- inject_Z_plus in Hlo1, Hhi1.
    destruct (IH (k + 1)%Z V' s1) as (s' & Hs' & Hz' & Hlo' & Hhi');
      try assumption; try (unfold V'; lia).
    exists s'. split; [exact Hs'|].
    replace (V + (c * ci_quantity l + spec_totalCents (map fst items)))%Z
      with (V' + spec_totalCents (map fst items))%Z by (unfold V'; lia).
    replace (k + Z.succ (Z.of_nat (List.length items)))%Z
      with (k + 1 + Z.of_nat (List.length items))%Z by lia.
    auto.
Qed.

Lemma Qfloor_unique x n :
  inject_Z n <= x -> x < inject_Z n + 1 -> Qfloor x = n.
Proof.
  intros H1 H2.
  pose proof (Qfloor_le x) as F1. pose proof (Qlt_floor x) as F2.
  rewrite inject_Z_plus in F2. change (inject_Z 1) with 1 in F2.
  assert (A : inject_Z n < inject_Z (Qfloor x) + 1) by lra.
  assert (B : inject_Z (Qfloor x) < inject_Z n + 1) by lra.
  change 1 with (inject_Z 1) in A, B. rewrite <- inject_Z_plus in A, B.
  rewrite <- Zlt_Qlt in A, B. lia.
Qed.

(** toFixed(2) recovers the cents from a double less than half a cent away. *)
Lemma toFixed2_near s n :
  0 <= s ->
  amount n - (1 # 200) < s -> s < amount n + (1 # 200) ->
  toFixed2 (Finite s) = Some n.
Proof.
  intros H0 H1 H2. unfold toFixed2.
  assert (E : Qle_bool 0 s = true) by (apply Qle_bool_iff; exact H0).
  rewrite E. f_equal. apply Qfloor_unique; unfold amount in *; lra.
Qed.

(** For a selection within the columns' ranges the double-precision total,
    formatted with toFixed(2), is the exact total. *)
Lemma toFixed2_total (items : list (CartItem * option Product)) :
  forallb columnsValid (map fst items) = true ->
  (Z.of_nat (List.length items) <= 100000)%Z ->
  (spec_totalCents (map fst items) < 10 ^ 10)%Z ->
  toFixed2 (fold_left addLineTotal items (Finite 0))
  = Some (spec_totalCents (map fst items)).
Proof.
  intros Hvalid Hlen Htot.
  pose proof (spec_totalCents_nonneg _ Hvalid) as Hnn.
  destruct (addLineTotal_error items 0 0 0) as (s & Hs & Hz & Hlo & Hhi);
    [lia | lia | reflexivity | vm_compute; discriminate
    | vm_compute; discriminate | exact Hvalid | lia | lia |].
  rewrite Hs. rewrite !Z.add_0_l in *.
  set (T := spec_totalCents (map fst items)) in *.
  assert (Hn : inject_Z (Z.of_nat (List.length items)) <= 100000).
  { change 100000 with (inject_Z 100000). rewrite <- Zle_Qle. lia. }
  assert (Hn0 : 0 <= inject_Z (Z.of_nat (List.length items))).
  { change 0 with (inject_Z 0). rewrite <- Zle_Qle. lia. }
  unfold stepError in *.
  apply toFixed2_near.
  - destruct (Z.eq_dec T 0) as [E|E].
    + rewrite (Qnum_zero_eq s (Hz E)). apply Qle_refl.
    + assert (H1 : (1 <= T)%Z) by lia. apply amount_le in H1.
      change (amount 1) with (1 * (1 # 100)) in H1.
      clear - H1 Hlo Hn Hn0. lra.
  - clear - Hlo Hn Hn0. lra.
  - clear - Hhi Hn Hn0. lra.
Qed.

End DoublePrecision.

Lemma spec_totalCents_cons l lines :
  spec_totalCents (l :: lines) =
  match ci_priceAtAdd l with
  | Some cents => cents * ci_quantity l
  | None => 0
  end + spec_totalCents lines.
Proof. reflexivity. Qed.

(** ** Checkout: the order lines *)

Lemma createOrderItems_rows orderId lines :
  forall tx tx',
    createOrderItems orderId (map draftOf lines) tx = ItemsCreated tx' ->
    exists rows,
      OrderItems tx' = OrderItems tx ++ rows /\
      Forall2 (copiesLine orderId) lines rows /\
      Categories tx' = Categories tx /\ Products tx' = Products tx /\
      Carts tx' = Carts tx /\ CartItems tx' = CartItems tx /\
      Orders tx' = Orders tx.
Proof.
  induction lines as [|l lines IH]; intros tx tx' H.
  - simpl in H. injection H as <-. exists []. rewrite app_nil_r.
    repeat split. constructor.
  - simpl in H. unfold OrderItem_create in H. simpl in H.
    destruct (ci_priceAtAdd l) as [price|] eqn:E; [|discriminate].
    apply IH in H. destruct H as (rows & Hrows & Hcopy & Hframe).
    simpl in Hrows, Hframe. rewrite <- app_assoc in Hrows.
    eexists. split; [exact Hrows|]. split; [|exact Hframe].
    constructor; [|exact Hcopy].
    unfold copiesLine. simpl. auto.
Qed.



(** ** Checkout: the transaction *)

Lemma drafts_of_lines db lines :
  map (fun item => draftOf (fst item)) (map (includeProduct db) lines) =
  map draftOf lines.
Proof. rewrite map_map. reflexivity. Qed.

Lemma lines_of_items db lines : map fst (map (includeProduct db) lines) = lines.
Proof. rewrite map_map. simpl. apply map_id. Qed.

(** The total of a selection within the columns' ranges, as getCart and
    placeOrder compute it. *)
Lemma toFixed2_selection db lines :
  forallb columnsValid lines = true ->
  Z.of_nat (List.length lines) <= 100000 ->
  spec_totalCents lines < 10 ^ 10 ->
  toFixed2 (fold_left addLineTotal (map (includeProduct db) lines) (Finite 0))
  = Some (spec_totalCents lines).
Proof.
  intros Hvalid Hlen Htot.
  rewrite <- (lines_of_items db lines) at 2.
  apply toFixed2_total.
  - rewrite lines_of_items. exact Hvalid.
  - rewrite length_map. exact Hlen.
  - rewrite lines_of_items. exact Htot.
Qed.


(** A 201 from placeOrder means the transaction went all the way: this is
    what it committed. *)
Lemma placeOrder_committed userId db :
  status (fst (placeOrder userId db)) = 201 ->
  exists cart order rows,
    Cart_findOne userId db = Some cart /\
    Some (o_totalAmount order) =
      toFixed2 (fold_left addLineTotal
                  (map (includeProduct db) (itemsOf (cart_id cart) db))
                  (Finite 0)) /\
    o_userId order = userId /\ o_status order = "pending" /\
    Orders (snd (placeOrder userId db)) = Orders db ++ [order] /\
    OrderItems (snd (placeOrder userId db)) = OrderItems db ++ rows /\
    Forall2 (copiesLine (o_id order)) (itemsOf (cart_id cart) db) rows /\
    Products (snd (placeOrder userId db)) =
      Products (fold_left decrementStock
                  (map (includeProduct db) (itemsOf (cart_id cart) db)) db) /\
    CartItems (snd (placeOrder userId db)) =
      destroy (fun i => ci_cartId i =? cart_id cart) (CartItems db) /\
    Carts (snd (placeOrder userId db)) = Carts db.
Proof.
  unfold placeOrder, transaction, placeOrder_tx, Cart_findOne_include.
  destruct (Cart_findOne userId db) as [cart|]; [|cbn; discriminate].
  cbn [cv_items cv_cart].
  remember (map (includeProduct db) (itemsOf (cart_id cart) db)) as items eqn:Hitems.
  destruct items as [|item0 items0]; [cbn; discriminate|].
  rewrite Hitems.
  destruct (placeOrder_loop _ (Finite 0) [] db) as [total drafts tx1|? ?|?] eqn:Hloop;
    [|cbn; discriminate|cbn; discriminate].
  apply placeOrder_loop_done in Hloop. destruct Hloop as (Htotal & Hdrafts & Htx1).
  rewrite drafts_of_lines in Hdrafts. simpl in Hdrafts.
  destruct (decrementStock_frame (map (includeProduct db) (itemsOf (cart_id cart) db)) db)
    as (_ & Fc & Fi & Fo & Foi & Fso & _).
  rewrite <- Htx1 in Fc, Fi, Fo, Foi, Fso.
  unfold Order_create.
  destruct (toFixed2 total) as [cents|] eqn:Hcents;
    [|destruct (createOrderItems _ drafts _); cbn; discriminate].
  destruct (fitsDecimal cents); [|cbn; discriminate].
  destruct (createOrderItems _ drafts _) as [tx3|tx3] eqn:Hcreate;
    [|cbn; discriminate].
  intros _. rewrite Hdrafts in Hcreate.
  apply createOrderItems_rows in Hcreate.
  destruct Hcreate as (rows & Hrows & Hcopy & _ & Fp3 & Fc3 & Fi3 & Fo3).
  cbn [o_id OrderItems Products Carts CartItems Orders] in Hrows, Hcopy, Fp3, Fc3, Fi3, Fo3.
  exists cart, (mkOrder (seqOrders tx1) userId cents "pending"), rows.
  cbn [snd fst o_totalAmount o_userId o_status o_id Orders OrderItems Products
       CartItems Carts set_CartItems].
  repeat split.
  - rewrite <- Htotal, Hcents. reflexivity.
  - rewrite Fo3, Fo. reflexivity.
  - rewrite Hrows, Foi. reflexivity.
  - exact Hcopy.
  - rewrite Fp3, Htx1. reflexivity.
  - rewrite Fi3, Fi. reflexivity.
  - rewrite Fc3, Fc. reflexivity.
Qed.


Lemma items_reference_products db lines :
  (forall l, In l lines ->
     exists p, Product_findByPk (ci_productId l) db = Some p) ->
  Forall (fun item => exists q, snd item = Some q /\
                                p_id q = ci_productId (fst item))
         (map (includeProduct db) lines).
Proof.
  intros H. apply Forall_forall. intros item Hin. apply in_map_iff in Hin.
  destruct Hin as (l & <- & Hl). destruct (H l Hl) as (p & Hp).
  exists p. split; [exact Hp|].
  apply findOne_In in Hp. apply Z.eqb_eq, Hp.
Qed.





(** C2. A customer with a line that asks for more than its product's current
    stock (every line referencing an existing product): placeOrder answers
    the 400 "Insufficient stock for <name>. Only <stock> available" of such
    a line and product, and the database afterwards is the database before:
    no order, no order line, every line and every stock as it was. *)
Theorem placeOrder_insufficient_stock (userId : Z) (db : DB) :
  (forall l, In l (linesOf userId db) ->
     Product_findByPk (ci_productId l) db <> None) ->
  (exists l p,
     In l (linesOf userId db) /\
     Product_findByPk (ci_productId l) db = Some p /\
     p_stock p < ci_quantity l) ->
  exists l p,
    In l (linesOf userId db) /\
    Product_findByPk (ci_productId l) db = Some p /\
    p_stock p < ci_quantity l /\
    placeOrder userId db =
    (failure 400
       ("Insufficient stock for " ++ p_name p ++ ". Only "
        ++ string_of_Z (p_stock p) ++ " available")%string,
     db).
Proof.
  unfold linesOf. intros Hfk (l0 & p0 & Hin0 & Hp0 & Hlt0).
  unfold placeOrder, transaction, placeOrder_tx, Cart_findOne_include.
  destruct (Cart_findOne userId db) as [cart|]; [|contradiction].
  cbn [cv_items cv_cart].
  remember (itemsOf (cart_id cart) db) as lines eqn:Hlines.
  destruct lines as [|l1 lines1]; [contradiction|].
  cbn [map]. rewrite <- (map_cons (includeProduct db)).
  destruct (placeOrder_loop_insufficient
              (map (includeProduct db) (l1 :: lines1)) (Finite 0) [] db)
    as (item & p & tx' & Hin & Hlt & Hloop).
  - apply Forall_forall. intros item Hitem. apply in_map_iff in Hitem.
    destruct Hitem as (l & <- & Hl). exact (Hfk l Hl).
  - apply Exists_exists. exists (includeProduct db l0). split.
    + apply in_map. exact Hin0.
    + exists p0. auto.
  - pose proof (placeOrder_loop_frame
                  (map (includeProduct db) (l1 :: lines1)) (Finite 0) [] db)
      as (_ & _ & _ & _ & _ & S1 & S2 & S3 & S4).
    rewrite Hloop in S1, S2, S3, S4. cbn [loopTx] in S1, S2, S3, S4.
    rewrite Hloop, (rollback_same db tx' S1 S2 S3 S4). apply in_map_iff in Hin.
    destruct Hin as (l & Heq & Hl). unfold includeProduct in Heq.
    injection Heq as -> Hp. exists item, p. auto.
Qed.

Lemma placeOrder_insufficient_stock_witness :
  exists l p,
    In l (linesOf 2 (snd (updateProduct 2 reduceStock NoFile
                            (snd (addToCart 2 2 2 shopWithCart))))) /\
    p_stock p < ci_quantity l /\
    snd (placeOrder 2 (snd (updateProduct 2 reduceStock NoFile
                              (snd (addToCart 2 2 2 shopWithCart)))))
    = snd (updateProduct 2 reduceStock NoFile
             (snd (addToCart 2 2 2 shopWithCart))).
Proof.
  destruct (placeOrder_insufficient_stock 2
              (snd (updateProduct 2 reduceStock NoFile
                      (snd (addToCart 2 2 2 shopWithCart)))))
    as (l & p & Hin & _ & Hlt & Heq).
  - intros l [<-|[<-|[]]]; discriminate.
  - exists (mkCartItem 2 1 2 2 (Some 4999)),
           (mkProduct 2 "Almost Gone" None 4999 1 1 None).
    split; [right; left; reflexivity|]. split; [reflexivity|]. simpl. lia.
  - exists l, p. split; [exact Hin|]. split; [exact Hlt|].
    rewrite Heq. reflexivity.
Defined.

(** The rollback is not idle: in that run the first line had passed the
    check and its product had been decremented in the working copy when the
    second line failed. *)
Example rollback_discards_decrements :
  let db := snd (updateProduct 2 reduceStock NoFile
                   (snd (addToCart 2 2 2 shopWithCart))) in
  match placeOrder_tx 2 db with
  | Rollback _ tx =>
      option_map p_stock (Product_findByPk 1 tx) = Some 13 /\
      option_map p_stock (Product_findByPk 1 db) = Some 15
  | Commit _ _ => False
  end /\
  snd (placeOrder 2 db) = db.
Proof. vm_compute. repeat split; reflexivity. Qed.

Lemma Forall2_In_left {A B} (R : A -> B -> Prop) xs ys x :
  Forall2 R xs ys -> In x xs -> exists y, In y ys /\ R x y.
Proof.
  induction 1 as [|x0 y0 xs ys HR _ IH]; intros Hin; [contradiction|].
  destruct Hin as [<-|Hin].
  - exists y0. split; [left; reflexivity | exact HR].
  - destruct (IH Hin) as (y & Hy & HRy). exists y. split; [right|]; assumption.
Qed.

(** C4. A line of a selection, and any run of catalog updates (price
    changes included): the CartItems table is the same afterwards, so the
    line is still there with its frozen price; and when the customer then
    places the order, the order gets a line for it whose product and
    quantity are the line's and whose priceAtPurchase is the line's frozen
    price, whatever the product costs by then. *)
Theorem frozen_price_survives
  (userId : Z) (requests : list (Z * ProductBody * Upload)) (db : DB)
  (l : CartItem) :
  In l (linesOf userId db) ->
  let db1 := updateProducts requests db in
  let db2 := snd (placeOrder userId db1) in
  CartItems db1 = CartItems db /\
  In l (linesOf userId db1) /\
  (status (fst (placeOrder userId db1)) = 201 ->
   exists order rows row,
     Orders db2 = Orders db1 ++ [order] /\
     OrderItems db2 = OrderItems db1 ++ rows /\
     In row rows /\
     oi_orderId row = o_id order /\
     oi_productId row = ci_productId l /\
     oi_quantity row = ci_quantity l /\
     Some (oi_priceAtPurchase row) = ci_priceAtAdd l).
Proof.
  intros Hl db1 db2.
  destruct (updateProducts_frame requests db) as (Fc & Fi & _).
  fold db1 in Fc, Fi.
  assert (Hlines : linesOf userId db1 = linesOf userId db).
  { unfold linesOf, Cart_findOne, itemsOf. rewrite Fc, Fi. reflexivity. }
  split; [exact Fi|]. split; [rewrite Hlines; exact Hl|].
  intros H201.
  destruct (placeOrder_committed userId db1 H201)
    as (cart & order & rows & Hc & _ & _ & _ & Ho & Hoi & Hcopy & _).
  assert (Hl1 : In l (itemsOf (cart_id cart) db1)).
  { rewrite <- Hlines in Hl. unfold linesOf in Hl. rewrite Hc in Hl. exact Hl. }
  destruct (Forall2_In_left _ _ _ _ Hcopy Hl1) as (row & Hrow & H1 & H2 & H3 & H4).
  exists order, rows, row. repeat split; assumption.
Qed.

Lemma frozen_price_survives_witness :
  option_map p_price
    (Product_findByPk 1 (updateProducts [(1, raisePrice, NoFile)] shopWithCart))
    = Some 49999 /\
  exists order rows row,
    OrderItems (snd (placeOrder 2
       (updateProducts [(1, raisePrice, NoFile)] shopWithCart)))
      = OrderItems (updateProducts [(1, raisePrice, NoFile)] shopWithCart) ++ rows /\
    In row rows /\ oi_orderId row = o_id order /\
    oi_priceAtPurchase row = 39999.
Proof.
  split; [reflexivity|].
  destruct (frozen_price_survives 2 [(1, raisePrice, NoFile)] shopWithCart
              (mkCartItem 1 1 1 2 (Some 39999)))
    as (_ & _ & Horder).
  - left. reflexivity.
  - destruct (Horder eq_refl)
      as (order & rows & row & _ & Hoi & Hin & Hid & _ & _ & Hprice).
    exists order, rows, row. repeat split; try assumption.
    simpl in Hprice. congruence.
Defined.

(** * Further properties *)

(** ** getCart *)

(** X1. getCart for a customer without a cart creates the cart (one row,
    owned by the customer) and answers with that cart and the total 0.00;
    the payload has no items key, the cart having just been created.  No
    other table is touched; the cart is found afterwards. *)
Theorem getCart_creates_empty_cart (userId : Z) (db : DB) :
  Cart_findOne userId db = None ->
  let db' := snd (getCart userId db) in
  let cart := mkCart (seqCarts db) userId in
  fst (getCart userId db) =
    mkResponse 200 true None (Some (mkCartTotalView cart None (Some 0))) /\
  Carts db' = Carts db ++ [cart] /\
  Cart_findOne userId db' = Some cart /\
  CartItems db' = CartItems db /\ Products db' = Products db /\
  Orders db' = Orders db /\ OrderItems db' = OrderItems db.
Proof.
  intros Hnone. unfold getCart, Cart_findOne_include. rewrite Hnone.
  cbn [Cart_create fst snd Carts CartItems Products Orders OrderItems].
  repeat split.
  unfold Cart_findOne in *. cbn [Carts]. rewrite findOne_app, Hnone.
  simpl. rewrite Z.eqb_refl. reflexivity.
Qed.

Lemma getCart_creates_empty_cart_witness :
  Cart_findOne 3 shopWithCart = None /\
  fst (getCart 3 shopWithCart) =
    mkResponse 200 true None
               (Some (mkCartTotalView (mkCart 2 3) None (Some 0))) /\
  Cart_findOne 3 (snd (getCart 3 shopWithCart)) = Some (mkCart 2 3).
Proof.
  split; [reflexivity|].
  destruct (getCart_creates_empty_cart 3 shopWithCart eq_refl)
    as (Hresp & _ & Hfound & _).
  split; [exact Hresp | exact Hfound].
Defined.

Lemma getCart_found userId db cart :
  Cart_findOne userId db = Some cart ->
  getCart userId db =
  (mkResponse 200 true None
     (Some (mkCartTotalView cart
              (Some (map (includeProduct db) (itemsOf (cart_id cart) db)))
              (toFixed2 (cartTotal
                           (map (includeProduct db) (itemsOf (cart_id cart) db)))))),
   db).
Proof.
  intros Hc. unfold getCart, Cart_findOne_include. rewrite Hc. reflexivity.
Qed.

Lemma getCart_created userId db :
  Cart_findOne userId db = None ->
  getCart userId db =
  (mkResponse 200 true None
     (Some (mkCartTotalView (mkCart (seqCarts db) userId) None (Some 0))),
   snd (Cart_create userId db)).
Proof.
  intros Hc. unfold getCart, Cart_findOne_include. rewrite Hc. reflexivity.
Qed.

(** X2. getCart is idempotent on the database: asking again leaves the
    database of the first call, so no second cart is made, and answers with
    the same cart and the same total.  The items differ in one case: for a
    cart that the first call created the first answer has no items key and
    the second lists no items; for a cart that existed both list the same
    items.  (Lines reference carts that exist.) *)
Theorem getCart_idempotent (userId : Z) (db : DB) :
  cartIdsIssued db ->
  let first := getCart userId db in
  let second := getCart userId (snd first) in
  snd second = snd first /\
  exists view1 view2,
    data (fst first) = Some view1 /\ data (fst second) = Some view2 /\
    ctv_cart view2 = ctv_cart view1 /\
    ctv_total view2 = ctv_total view1 /\
    (Cart_findOne userId db = None ->
     ctv_items view1 = None /\ ctv_items view2 = Some []) /\
    (Cart_findOne userId db <> None -> ctv_items view2 = ctv_items view1).
Proof.
  intros Hfk first second. unfold second, first. clear first second.
  destruct (Cart_findOne userId db) as [cart|] eqn:Hc.
  - rewrite (getCart_found _ _ _ Hc). cbn [snd fst].
    rewrite (getCart_found _ _ _ Hc). cbn [snd fst data].
    split; [reflexivity|].
    eexists. eexists. split; [reflexivity|]. split; [reflexivity|].
    cbn [ctv_cart ctv_total ctv_items].
    split; [reflexivity|]. split; [reflexivity|].
    split; [discriminate | reflexivity].
  - rewrite (getCart_created _ _ Hc). cbn [snd fst].
    assert (Hc' : Cart_findOne userId (snd (Cart_create userId db)) =
                  Some (mkCart (seqCarts db) userId)).
    { unfold Cart_findOne in *. cbn [Cart_create snd Carts].
      rewrite findOne_app, Hc. simpl findOne. rewrite Z.eqb_refl. reflexivity. }
    assert (Hnone : itemsOf (seqCarts db) (snd (Cart_create userId db)) = []).
    { unfold itemsOf. cbn [Cart_create snd CartItems].
      apply findOne_None_findAll, findOne_none. intros i Hi. apply Z.eqb_neq.
      specialize (Hfk i Hi). lia. }
    rewrite (getCart_found _ _ _ Hc'). cbn [cart_id]. rewrite Hnone.
    cbn [snd fst data map]. split; [reflexivity|].
    eexists. eexists. split; [reflexivity|]. split; [reflexivity|].
    cbn [ctv_cart ctv_total ctv_items].
    split; [reflexivity|]. split; [reflexivity|].
    split; [intros _; split; reflexivity | congruence].
Qed.

Lemma getCart_idempotent_witness :
  snd (getCart 3 (snd (getCart 3 shopWithCart))) = snd (getCart 3 shopWithCart) /\
  snd (getCart 2 (snd (getCart 2 shopWithCart))) = snd (getCart 2 shopWithCart).
Proof.
  assert (Hfk : cartIdsIssued shopWithCart).
  { intros i [<-|[]]. vm_compute. reflexivity. }
  split.
  - apply (proj1 (getCart_idempotent 3 shopWithCart Hfk)).
  - apply (proj1 (getCart_idempotent 2 shopWithCart Hfk)).
Defined.

Lemma cartTotal_fold items :
  cartTotal items = fold_left addLineTotal items (Finite 0).
Proof. reflexivity. Qed.

(** X3. For a selection within the columns' ranges (every line with a
    frozen price that is not negative and a quantity between 1 and
    2147483647, at most 100000 lines, an exact total below 100000000.00),
    getCart's total, a sum of doubles formatted by toFixed(2), is the exact
    sum of frozenUnitPrice x quantity over the lines, to the cent; the items
    it lists, when it lists any, are the lines of the selection. *)
Theorem getCart_total_exact (userId : Z) (db : DB) :
  forallb columnsValid (linesOf userId db) = true ->
  Z.of_nat (List.length (linesOf userId db)) <= 100000 ->
  spec_totalCents (linesOf userId db) < 10 ^ 10 ->
  exists view,
    data (fst (getCart userId db)) = Some view /\
    ctv_total view = Some (spec_totalCents (linesOf userId db)) /\
    (forall items,
       ctv_items view = Some items -> map fst items = linesOf userId db).
Proof.
  unfold linesOf, getCart, Cart_findOne_include. intros Hvalid Hlen Hbound.
  destruct (Cart_findOne userId db) as [cart|].
  - cbn [fst data cv_items]. eexists. split; [reflexivity|].
    cbn [ctv_items ctv_total cv_items]. split.
    + rewrite cartTotal_fold. apply toFixed2_selection; assumption.
    + intros items [= <-]. apply lines_of_items.
  - cbn. eexists. split; [reflexivity|]. split; [reflexivity|].
    intros items [=].
Qed.

Lemma getCart_total_exact_witness :
  exists view,
    data (fst (getCart 2 shopWithCart)) = Some view /\
    ctv_total view = Some 79998.
Proof.
  assert (Hlen : Z.of_nat (List.length (linesOf 2 shopWithCart)) <= 100000)
    by (vm_compute; discriminate).
  assert (Hbound : spec_totalCents (linesOf 2 shopWithCart) < 10 ^ 10)
    by reflexivity.
  destruct (getCart_total_exact 2 shopWithCart eq_refl Hlen Hbound)
    as (view & Hd & Ht & _).
  exists view. split; [exact Hd | exact Ht].
Defined.

(** X4. The total getCart shows is the amount placeOrder charges: when
    placeOrder answers 201, the totalAmount of the order it adds is the total
    of the getCart response on the same database. *)
Theorem getCart_total_is_charged (userId : Z) (db : DB) :
  status (fst (placeOrder userId db)) = 201 ->
  exists view order,
    data (fst (getCart userId db)) = Some view /\
    Orders (snd (placeOrder userId db)) = Orders db ++ [order] /\
    ctv_total view = Some (o_totalAmount order).
Proof.
  intros H201.
  destruct (placeOrder_committed userId db H201)
    as (cart & order & rows & Hc & Htot & _ & _ & Ho & _).
  unfold getCart, Cart_findOne_include. rewrite Hc. cbn [fst data].
  eexists. exists order. split; [reflexivity|]. split; [exact Ho|].
  cbn [ctv_total cv_items]. rewrite cartTotal_fold. symmetry. exact Htot.
Qed.

Lemma getCart_total_is_charged_witness :
  exists view order,
    data (fst (getCart 2 shopWithCart)) = Some view /\
    Orders shopWithOrder = Orders shopWithCart ++ [order] /\
    ctv_total view = Some (o_totalAmount order).
Proof. apply (getCart_total_is_charged 2 shopWithCart). reflexivity. Defined.

(** ** placeOrder: failures, repetition, stock *)

(** The transaction either commits and the answer is the 201, or it is
    rolled back and every table is as it was. *)
Lemma placeOrder_outcome (userId : Z) (db : DB) :
  let db' := snd (placeOrder userId db) in
  status (fst (placeOrder userId db)) = 201 \/
  (Categories db' = Categories db /\ Products db' = Products db /\
   Carts db' = Carts db /\ CartItems db' = CartItems db /\
   Orders db' = Orders db /\ OrderItems db' = OrderItems db).
Proof.
  unfold placeOrder, transaction.
  destruct (placeOrder_tx userId db) as [[response|orderId] tx|r tx] eqn:Htx.
  - (* a commit always hands over the order id *)
    unfold placeOrder_tx in Htx.
    destruct (Cart_findOne_include userId db) as [cart|]; [|discriminate].
    destruct (cv_items cart); [discriminate|].
    destruct (placeOrder_loop _ _ _ _); try discriminate.
    revert Htx. order_cases; discriminate.
  - left. reflexivity.
  - right. destruct r; cbn; repeat split.
Qed.

(** X5. placeOrder is all or nothing on the tables: whenever the answer is
    not the 201, whatever the reason (no cart, empty cart, a line over
    stock, a line whose product is gone, a line without a price, a total the
    column cannot hold), every table afterwards is the table before.  The
    sequences are another matter: an order key taken by a transaction that
    is then rolled back is not given back. *)
Theorem placeOrder_all_or_nothing (userId : Z) (db : DB) :
  status (fst (placeOrder userId db)) <> 201 ->
  let db' := snd (placeOrder userId db) in
  Categories db' = Categories db /\ Products db' = Products db /\
  Carts db' = Carts db /\ CartItems db' = CartItems db /\
  Orders db' = Orders db /\ OrderItems db' = OrderItems db.
Proof.
  intros Hfail db'.
  destruct (placeOrder_outcome userId db) as [H201|Hsame];
    [contradiction | exact Hsame].
Qed.

Lemma placeOrder_all_or_nothing_witness :
  Orders (snd (placeOrder 2 shopLegacyLine)) = Orders shopLegacyLine /\
  CartItems (snd (placeOrder 2 shopLegacyLine)) = CartItems shopLegacyLine /\
  Products (snd (placeOrder 2 dearShop)) = Products dearShop.
Proof.
  split; [|split].
  - apply (placeOrder_all_or_nothing 2 shopLegacyLine). vm_compute. discriminate.
  - apply (placeOrder_all_or_nothing 2 shopLegacyLine). vm_compute. discriminate.
  - apply (placeOrder_all_or_nothing 2 dearShop). vm_compute. discriminate.
Defined.

(** The checkout of a line without a price: the order is inserted with the
    total NaN and takes the key 1, the order line is refused, the rollback
    drops the order and the decrement, and the next order will get the
    key 2. *)
Example rollback_keeps_the_sequence :
  fst (placeOrder 2 shopLegacyLine) = failure 500 "Error placing order" /\
  Orders (snd (placeOrder 2 shopLegacyLine)) = [] /\
  Products (snd (placeOrder 2 shopLegacyLine)) = Products shopLegacyLine /\
  seqOrders shopLegacyLine = 1 /\
  seqOrders (snd (placeOrder 2 shopLegacyLine)) = 2.
Proof. vm_compute. repeat split; reflexivity. Qed.

Lemma placeOrder_no_lines (userId : Z) (db : DB) :
  linesOf userId db = [] ->
  placeOrder userId db = (failure 400 "Cart is empty", db).
Proof.
  unfold linesOf, placeOrder, transaction, placeOrder_tx, Cart_findOne_include.
  destruct (Cart_findOne userId db) as [cart|].
  - cbn [cv_items]. intros ->. cbn [map]. rewrite rollback_same; reflexivity.
  - intros _. rewrite rollback_same; reflexivity.
Qed.

(** X6. placeOrder answers 400 "Cart is empty" exactly when the customer
    has no cart or a cart without lines, and then it changes nothing. *)
Theorem placeOrder_empty_cart (userId : Z) (db : DB) :
  (linesOf userId db = [] ->
   placeOrder userId db = (failure 400 "Cart is empty", db)) /\
  (fst (placeOrder userId db) = failure 400 "Cart is empty" ->
   linesOf userId db = []).
Proof.
  split; [apply placeOrder_no_lines|].
  unfold linesOf, placeOrder, transaction, placeOrder_tx, Cart_findOne_include.
  destruct (Cart_findOne userId db) as [cart|]; [|reflexivity].
  cbn [cv_items cv_cart].
  destruct (map (includeProduct db) (itemsOf (cart_id cart) db))
    as [|item0 items0] eqn:Hitems.
  - intros _. destruct (itemsOf (cart_id cart) db); [reflexivity|discriminate].
  - destruct (placeOrder_loop _ _ _ _); [|cbn; discriminate|cbn; discriminate].
    order_cases; cbn; discriminate.
Qed.

Lemma placeOrder_empty_cart_witness :
  placeOrder 3 shopWithCart = (failure 400 "Cart is empty", shopWithCart) /\
  placeOrder 2 (snd (clearCart 2 shopWithCart))
  = (failure 400 "Cart is empty", snd (clearCart 2 shopWithCart)) /\
  linesOf 2 shopWithOrder = [].
Proof.
  split; [|split].
  - apply (proj1 (placeOrder_empty_cart 3 shopWithCart)). reflexivity.
  - apply (proj1 (placeOrder_empty_cart 2 (snd (clearCart 2 shopWithCart)))).
    reflexivity.
  - apply (proj2 (placeOrder_empty_cart 2 shopWithOrder)). reflexivity.
Defined.

(** X7. A checkout cannot be repeated: right after a placeOrder that
    answered 201, the same call answers 400 "Cart is empty" and adds no
    second order. *)
Theorem placeOrder_twice (userId : Z) (db : DB) :
  status (fst (placeOrder userId db)) = 201 ->
  let db' := snd (placeOrder userId db) in
  placeOrder userId db' = (failure 400 "Cart is empty", db').
Proof.
  intros H201 db'. apply placeOrder_no_lines.
  destruct (placeOrder_committed userId db H201)
    as (cart & order & rows & Hc & _ & _ & _ & _ & _ & _ & _ & Hi & Hcs).
  fold db' in Hi, Hcs. unfold linesOf, Cart_findOne, itemsOf in *.
  rewrite Hcs, Hc, Hi. apply destroy_findAll.
Qed.

Lemma placeOrder_twice_witness :
  placeOrder 2 shopWithOrder = (failure 400 "Cart is empty", shopWithOrder).
Proof. apply (placeOrder_twice 2 shopWithCart). reflexivity. Defined.

Lemma placeOrder_loop_checked items :
  forall total drafts tx total' drafts' tx',
    placeOrder_loop items total drafts tx = LoopDone total' drafts' tx' ->
    Forall (fun item => exists p, snd item = Some p /\
                                  ci_quantity (fst item) <= p_stock p) items.
Proof.
  induction items as [|[item [product|]] items IH]; simpl;
    intros total drafts tx total' drafts' tx' H.
  - constructor.
  - destruct (p_stock product <? ci_quantity item) eqn:E; [discriminate|].
    apply Z.ltb_ge in E. constructor; [exists product; auto | eauto].
  - discriminate.
Qed.

(** A 201 means every line had passed the stock check against the product
    loaded with the cart. *)
Lemma placeOrder_committed_checked userId db :
  status (fst (placeOrder userId db)) = 201 ->
  forall l, In l (linesOf userId db) ->
    exists p, Product_findByPk (ci_productId l) db = Some p /\
              ci_quantity l <= p_stock p.
Proof.
  unfold linesOf, placeOrder, transaction, placeOrder_tx, Cart_findOne_include.
  destruct (Cart_findOne userId db) as [cart|]; [|cbn; discriminate].
  cbn [cv_items cv_cart].
  remember (map (includeProduct db) (itemsOf (cart_id cart) db)) as items eqn:Hitems.
  destruct items as [|item0 items0]; [cbn; discriminate|].
  destruct (placeOrder_loop _ (Finite 0) [] db) as [total drafts tx1|? ?|?] eqn:Hloop;
    [|cbn; discriminate|cbn; discriminate].
  intros _ l Hl. apply placeOrder_loop_checked in Hloop.
  rewrite Hitems in Hloop. rewrite Forall_forall in Hloop.
  exact (Hloop (includeProduct db l) (in_map _ _ _ Hl)).
Qed.

Lemma decrementStock_lookup_none items :
  forall tx productId,
    Product_findByPk productId tx = None ->
    Product_findByPk productId (fold_left decrementStock items tx) = None.
Proof.
  induction items as [|[item op] items IH]; intros tx productId Hnone;
    [exact Hnone|].
  simpl. apply IH. unfold decrementStock. simpl.
  destruct op as [product|]; [|exact Hnone].
  unfold Product_findByPk, Product_decrement in *. simpl.
  rewrite findOne_update by reflexivity. rewrite Hnone. reflexivity.
Qed.

Lemma linesFor_at_most_one lines productId :
  (List.length (linesFor productId lines) <= 1)%nat ->
  linesFor productId lines = [] \/
  exists l, linesFor productId lines = [l] /\ In l lines /\
            ci_productId l = productId.
Proof.
  intros Hlen. destruct (linesFor productId lines) as [|l [|l' rest]] eqn:E.
  - left. reflexivity.
  - right. exists l. split; [reflexivity|].
    assert (Hin : In l (linesFor productId lines)) by (rewrite E; left; reflexivity).
    unfold linesFor in Hin. apply filter_In in Hin. destruct Hin as [Hin Hp].
    split; [exact Hin | apply Z.eqb_eq, Hp].
  - simpl in Hlen. lia.
Qed.

(** X8. A checkout that runs alone never oversells: with one line per
    product in every cart and no negative stock before, a placeOrder that
    answers 201, with no other request between its stock check and its
    decrement, leaves no product with a negative stock.  (The code takes no
    row lock; nothing is stated of checkouts that run concurrently.) *)
Theorem placeOrder_keeps_stock_non_negative (userId : Z) (db : DB) :
  oneLinePerProduct db ->
  stockNonNegative db ->
  status (fst (placeOrder userId db)) = 201 ->
  stockNonNegative (snd (placeOrder userId db)).
Proof.
  intros Hone Hpos H201 productId p' Hp'.
  pose proof (placeOrder_committed_checked userId db H201) as Hchecked.
  destruct (placeOrder_committed userId db H201)
    as (cart & order & rows & Hc & _ & _ & _ & _ & _ & _ & Hprod & _).
  assert (Hlines : linesOf userId db = itemsOf (cart_id cart) db).
  { unfold linesOf. rewrite Hc. reflexivity. }
  rewrite Hlines in Hchecked.
  unfold Product_findByPk in Hp'. rewrite Hprod in Hp'.
  fold (Product_findByPk productId
          (fold_left decrementStock
             (map (includeProduct db) (itemsOf (cart_id cart) db)) db)) in Hp'.
  destruct (Product_findByPk productId db) as [p|] eqn:Hp.
  2:{ rewrite (decrementStock_lookup_none _ _ _ Hp) in Hp'. discriminate. }
  destruct (decrementStock_lookup
              (map (includeProduct db) (itemsOf (cart_id cart) db)) db productId p)
    as (p'' & Hp'' & Hstock & _).
  { apply items_reference_products. intros l Hl.
    destruct (Hchecked l Hl) as (q & Hq & _). eauto. }
  { exact Hp. }
  rewrite Hp'' in Hp'. injection Hp' as <-.
  rewrite lines_of_items in Hstock. rewrite Hstock.
  specialize (Hpos productId p Hp).
  specialize (Hone (cart_id cart) productId).
  rewrite <- linesFor_itemsOf in Hone.
  destruct (linesFor_at_most_one _ _ Hone) as [Hnil|(l & Hsingle & Hl & Hid)];
    unfold orderedQuantity.
  - rewrite Hnil. simpl. lia.
  - rewrite Hsingle. simpl.
    destruct (Hchecked l Hl) as (q & Hq & Hle).
    rewrite Hid, Hp in Hq. injection Hq as <-. lia.
Qed.

Lemma placeOrder_keeps_stock_non_negative_witness :
  stockNonNegative shopWithOrder.
Proof.
  apply (placeOrder_keeps_stock_non_negative 2 shopWithCart).
  - intros cartId productId. unfold shopWithCart. simpl.
    destruct (lineWhere cartId productId _); simpl; lia.
  - intros productId p Hp. apply findOne_In in Hp. destruct Hp as [Hin _].
    change (Products shopWithCart) with [tablet; almostGone] in Hin.
    destruct Hin as [<-|[<-|[]]]; simpl; lia.
  - reflexivity.
Defined.

(** ** placeOrder, then reading the order *)

(** The key of the order a 201 adds, and the payload of the 201. *)
Lemma placeOrder_committed_key userId db :
  status (fst (placeOrder userId db)) = 201 ->
  data (fst (placeOrder userId db)) =
    Order_findByPk_include (seqOrders db) (snd (placeOrder userId db)) /\
  forall order,
    Orders (snd (placeOrder userId db)) = Orders db ++ [order] ->
    o_id order = seqOrders db.
Proof.
  unfold placeOrder, transaction, placeOrder_tx, Cart_findOne_include.
  destruct (Cart_findOne userId db) as [cart|]; [|cbn; discriminate].
  cbn [cv_items cv_cart].
  remember (map (includeProduct db) (itemsOf (cart_id cart) db)) as items eqn:Hitems.
  destruct items as [|item0 items0]; [cbn; discriminate|].
  rewrite Hitems.
  destruct (placeOrder_loop _ (Finite 0) [] db) as [total drafts tx1|? ?|?] eqn:Hloop;
    [|cbn; discriminate|cbn; discriminate].
  apply placeOrder_loop_done in Hloop. destruct Hloop as (_ & Hdrafts & Htx1).
  rewrite drafts_of_lines in Hdrafts. simpl in Hdrafts.
  destruct (decrementStock_frame (map (includeProduct db) (itemsOf (cart_id cart) db)) db)
    as (_ & _ & _ & Fo & _ & Fso & _).
  rewrite <- Htx1 in Fo, Fso.
  unfold Order_create.
  destruct (toFixed2 total) as [cents|];
    [|destruct (createOrderItems _ drafts _); cbn; discriminate].
  destruct (fitsDecimal cents); [|cbn; discriminate].
  destruct (createOrderItems _ drafts _) as [tx3|tx3] eqn:Hcreate;
    [|cbn; discriminate].
  intros _. rewrite Hdrafts in Hcreate.
  apply createOrderItems_rows in Hcreate.
  destruct Hcreate as (rows & _ & _ & _ & _ & _ & _ & Fo3).
  cbn [o_id Orders] in Fo3.
  cbn [fst snd data o_id Orders set_CartItems]. rewrite Fso.
  split; [reflexivity|].
  intros order Horder. rewrite Fo3, Fo in Horder.
  apply app_inv_head in Horder. injection Horder as <-. exact Fso.
Qed.

Lemma copiesLine_orderItems orderId lines rows :
  Forall2 (copiesLine orderId) lines rows ->
  findAll (fun r => oi_orderId r =? orderId) rows = rows.
Proof.
  unfold findAll. induction 1 as [|l r lines rows (Hid & _) _ IH]; simpl;
    [reflexivity|].
  rewrite Hid, Z.eqb_refl, IH. reflexivity.
Qed.

(** X9. Round trip through the ledger.  With order keys issued by the
    sequence, a placeOrder that answers 201 carries in its payload the order
    it added together with exactly the order lines it added (one per
    selection line, copying it), and getOrderById for the customer and that
    order id returns 200 with the same payload. *)
Theorem placeOrder_then_getOrderById (userId : Z) (db : DB) :
  orderKeys db ->
  status (fst (placeOrder userId db)) = 201 ->
  let db' := snd (placeOrder userId db) in
  exists order rows,
    Orders db' = Orders db ++ [order] /\
    OrderItems db' = OrderItems db ++ rows /\
    Forall2 (copiesLine (o_id order)) (linesOf userId db) rows /\
    data (fst (placeOrder userId db)) =
      Some (mkOrderView order (map (includeOrderProduct db') rows)) /\
    getOrderById userId (o_id order) db' =
      mkResponse 200 true None
                 (Some (mkOrderView order (map (includeOrderProduct db') rows))).
Proof.
  intros [Hkeys Hrefs] H201 db'.
  destruct (placeOrder_committed userId db H201)
    as (cart & order & rows & Hc & _ & Hu & _ & Ho & Hoi & Hcopy & _).
  destruct (placeOrder_committed_key userId db H201) as [Hdata Hkey].
  fold db' in Ho, Hoi, Hdata, Hkey. specialize (Hkey order Ho).
  assert (Hitems : orderItemsOf (o_id order) db' = rows).
  { unfold orderItemsOf. rewrite Hoi, findAll_app.
    rewrite (findOne_None_findAll _ (OrderItems db)).
    - simpl. exact (copiesLine_orderItems _ _ _ Hcopy).
    - apply findOne_none. intros r Hr. apply Z.eqb_neq.
      specialize (Hrefs r Hr). lia. }
  assert (Hview : orderView db' order =
                  mkOrderView order (map (includeOrderProduct db') rows)).
  { unfold orderView. rewrite Hitems. reflexivity. }
  exists order, rows. split; [exact Ho|]. split; [exact Hoi|]. split.
  { unfold linesOf. rewrite Hc. exact Hcopy. }
  split.
  - rewrite Hdata. unfold Order_findByPk_include, Order_findByPk.
    rewrite Ho, findOne_app, findOne_none.
    + simpl. rewrite Hkey, Z.eqb_refl. simpl. rewrite <- Hview. reflexivity.
    + intros o Hin. apply Z.eqb_neq. specialize (Hkeys o Hin). lia.
  - unfold getOrderById. rewrite Ho, findOne_app, findOne_none.
    + simpl. rewrite Hu, !Z.eqb_refl. simpl. rewrite <- Hview. reflexivity.
    + intros o Hin. specialize (Hkeys o Hin).
      apply andb_false_iff. left. apply Z.eqb_neq. lia.
Qed.

Lemma placeOrder_then_getOrderById_witness :
  exists order rows,
    Orders shopWithOrder = Orders shopWithCart ++ [order] /\
    getOrderById 2 (o_id order) shopWithOrder =
      mkResponse 200 true None
        (Some (mkOrderView order (map (includeOrderProduct shopWithOrder) rows))).
Proof.
  destruct (placeOrder_then_getOrderById 2 shopWithCart)
    as (order & rows & Ho & _ & _ & _ & Hget).
  - split; intros x [].
  - reflexivity.
  - exists order, rows. split; [exact Ho | exact Hget].
Defined.

(** X10. getMyOrders after a checkout: when placeOrder answers 201, the
    customer's list starts with the new order, continues with the
    customer's earlier orders newest first, and its count is one more than
    before; every order in it is the customer's. *)
Theorem getMyOrders_after_placeOrder (userId : Z) (db : DB) :
  status (fst (placeOrder userId db)) = 201 ->
  let db' := snd (placeOrder userId db) in
  exists order,
    Orders db' = Orders db ++ [order] /\
    l_data (getMyOrders userId db') =
      orderView db' order
      :: map (orderView db')
             (rev (findAll (fun o => o_userId o =? userId) (Orders db))) /\
    l_count (getMyOrders userId db') = l_count (getMyOrders userId db) + 1 /\
    Forall (fun view => o_userId (ov_order view) = userId)
           (l_data (getMyOrders userId db')).
Proof.
  intros H201 db'.
  destruct (placeOrder_committed userId db H201)
    as (cart & order & rows & _ & _ & Hu & _ & Ho & _).
  fold db' in Ho. exists order. split; [exact Ho|].
  assert (Hmine : findAll (fun o => o_userId o =? userId) (Orders db') =
                  findAll (fun o => o_userId o =? userId) (Orders db) ++ [order]).
  { rewrite Ho, findAll_app. simpl. rewrite Hu, Z.eqb_refl. reflexivity. }
  unfold getMyOrders. cbn [l_data l_count]. rewrite Hmine, rev_app_distr.
  simpl rev. simpl app. split; [reflexivity|]. split.
  - simpl List.length. lia.
  - apply Forall_forall. intros view Hin. apply in_map_iff in Hin.
    destruct Hin as (o & <- & Hin). simpl.
    destruct Hin as [<-|Hin]; [exact Hu|].
    apply in_rev in Hin. unfold findAll in Hin. apply filter_In in Hin.
    apply Z.eqb_eq, Hin.
Qed.

Lemma getMyOrders_after_placeOrder_witness :
  exists order,
    Orders shopWithOrder = Orders shopWithCart ++ [order] /\
    l_count (getMyOrders 2 shopWithOrder) = 1 /\
    l_count (getMyOrders 3 shopWithOrder) = 0.
Proof.
  destruct (getMyOrders_after_placeOrder 2 shopWithCart eq_refl)
    as (order & Ho & _ & Hcount & _).
  exists order. split; [exact Ho|]. split; [exact Hcount | reflexivity].
Defined.

(** ** removeFromCart *)

Lemma NoDup_key_eq {A} (key : A -> Z) rows x y :
  NoDup (map key rows) -> In x rows -> In y rows -> key x = key y -> x = y.
Proof.
  induction rows as [|r rows IH]; intros Hnd Hx Hy Hk; [contradiction|].
  simpl in Hnd. inversion Hnd as [|? ? Hnotin Hnd']; subst.
  destruct Hx as [<-|Hx], Hy as [<-|Hy]; auto.
  - exfalso. apply Hnotin. rewrite Hk. apply in_map. exact Hy.
  - exfalso. apply Hnotin. rewrite <- Hk. apply in_map. exact Hx.
Qed.




(** ** The cart never touches stock or orders *)

(** X12. No cart operation changes a product (its stock in particular: a
    line reserves nothing) or the order ledger: after addToCart, getCart,
    updateCartItem, removeFromCart and clearCart the Products, Orders and
    OrderItems tables are the ones before, whatever the outcome. *)
Theorem cart_operations_frame (userId productId itemId quantity : Z) (db : DB) :
  let unchanged (db' : DB) :=
    Products db' = Products db /\ Orders db' = Orders db /\
    OrderItems db' = OrderItems db /\ Categories db' = Categories db in
  unchanged (snd (addToCart userId productId quantity db)) /\
  unchanged (snd (getCart userId db)) /\
  unchanged (snd (updateCartItem userId itemId quantity db)) /\
  unchanged (snd (removeFromCart userId itemId db)) /\
  unchanged (snd (clearCart userId db)).
Proof.
  cbv zeta. split; [|split; [|split; [|split]]].
  - unfold addToCart, getOrCreateCart.
    destruct (Product_findByPk productId db) as [product|]; [|repeat split].
    destruct (Cart_findOne userId db) as [cart|]; cbn [Cart_create].
    + destruct (findOne _ _) as [line|].
      * destruct (p_stock product <? _); repeat split.
      * unfold CartItem_create. destruct (_ && _); repeat split.
    + destruct (findOne _ _) as [line|].
      * destruct (p_stock product <? _); repeat split.
      * unfold CartItem_create. destruct (_ && _); repeat split.
  - unfold getCart. destruct (Cart_findOne_include userId db); repeat split.
  - unfold updateCartItem.
    destruct (Cart_findOne userId db) as [cart|]; [|repeat split].
    destruct (findOne _ _) as [line|]; [|repeat split].
    destruct (quantity <? 1); [repeat split|].
    destruct (Product_findByPk _ db) as [product|]; [|repeat split].
    destruct (p_stock product <? quantity); repeat split.
  - unfold removeFromCart.
    destruct (Cart_findOne userId db) as [cart|]; [|repeat split].
    destruct (findOne _ _) as [line|]; repeat split.
  - unfold clearCart.
    destruct (Cart_findOne userId db) as [cart|]; repeat split.
Qed.

(** ** Invariants of the cart tables *)

Lemma findAll_destroy_length {A} (pred gone : A -> bool) rows :
  (List.length (findAll pred (destroy gone rows)) <=
   List.length (findAll pred rows))%nat.
Proof.
  unfold findAll, destroy. induction rows as [|r rows IH]; simpl; [lia|].
  destruct (gone r); simpl; destruct (pred r); simpl; lia.
Qed.

Lemma update_length {A} (where_ : A -> bool) set rows :
  List.length (update where_ set rows) = List.length rows.
Proof. apply length_map. Qed.

Lemma oneLinePerProduct_same db db' :
  CartItems db' = CartItems db -> oneLinePerProduct db -> oneLinePerProduct db'.
Proof. unfold oneLinePerProduct. intros ->. auto. Qed.

Lemma oneLinePerProduct_save item quantity price db :
  oneLinePerProduct db -> oneLinePerProduct (CartItem_save item quantity price db).
Proof.
  intros H cartId productId. unfold CartItem_save. cbn [CartItems set_CartItems].
  rewrite findAll_update by reflexivity. rewrite update_length. apply H.
Qed.

Lemma oneLinePerProduct_destroy gone db :
  oneLinePerProduct db ->
  oneLinePerProduct (set_CartItems (destroy gone (CartItems db)) db).
Proof.
  intros H cartId productId. cbn [CartItems set_CartItems].
  etransitivity; [apply findAll_destroy_length | apply H].
Qed.

Lemma lineWhere_eq cartId productId i :
  lineWhere cartId productId i = true ->
  ci_cartId i = cartId /\ ci_productId i = productId.
Proof.
  unfold lineWhere. intros H. apply andb_true_iff in H.
  destruct H as [H1 H2]. apply Z.eqb_eq in H1, H2. auto.
Qed.

Lemma oneLinePerProduct_create cartId productId quantity price db item db2 :
  findOne (lineWhere cartId productId) (CartItems db) = None ->
  oneLinePerProduct db ->
  CartItem_create cartId productId quantity price db = Some (item, db2) ->
  oneLinePerProduct db2.
Proof.
  intros Hnone H Hcreate c p. unfold CartItem_create in Hcreate.
  destruct (_ && _); [|discriminate]. injection Hcreate as _ <-.
  cbn [CartItems].
  rewrite findAll_app, length_app. simpl.
  destruct (lineWhere c p _) eqn:E; simpl.
  - apply lineWhere_eq in E. simpl in E. destruct E as [<- <-].
    rewrite (findOne_None_findAll _ _ Hnone). simpl. lia.
  - specialize (H c p). lia.
Qed.

(** X13. The controllers keep "at most one line per product in a cart":
    if it holds before addToCart, updateCartItem, removeFromCart, clearCart or
    placeOrder, it holds afterwards. *)
Theorem oneLinePerProduct_preserved
  (userId productId itemId quantity : Z) (db : DB) :
  oneLinePerProduct db ->
  oneLinePerProduct (snd (addToCart userId productId quantity db)) /\
  oneLinePerProduct (snd (updateCartItem userId itemId quantity db)) /\
  oneLinePerProduct (snd (removeFromCart userId itemId db)) /\
  oneLinePerProduct (snd (clearCart userId db)) /\
  oneLinePerProduct (snd (placeOrder userId db)).
Proof.
  intros H. split; [|split; [|split; [|split]]].
  - unfold addToCart.
    destruct (Product_findByPk productId db) as [product|]; [|exact H].
    assert (H1 : oneLinePerProduct (snd (getOrCreateCart userId db))).
    { unfold getOrCreateCart. destruct (Cart_findOne userId db); exact H. }
    destruct (getOrCreateCart userId db) as [cart db1]. cbn [snd] in H1.
    destruct (findOne _ (CartItems db1)) as [line|] eqn:Hline.
    + destruct (p_stock product <? _); [exact H1|].
      apply oneLinePerProduct_save. exact H1.
    + destruct (CartItem_create _ _ _ _ db1) as [[item db2]|] eqn:Hcreate;
        [|exact H1].
      exact (oneLinePerProduct_create _ _ _ _ _ _ _ Hline H1 Hcreate).
  - unfold updateCartItem.
    destruct (Cart_findOne userId db) as [cart|]; [|exact H].
    destruct (findOne _ _) as [line|]; [|exact H].
    destruct (quantity <? 1); [exact H|].
    destruct (Product_findByPk _ db) as [product|]; [|exact H].
    destruct (p_stock product <? quantity); [exact H|].
    apply oneLinePerProduct_save. exact H.
  - unfold removeFromCart.
    destruct (Cart_findOne userId db) as [cart|]; [|exact H].
    destruct (findOne _ _) as [line|]; [|exact H].
    apply oneLinePerProduct_destroy. exact H.
  - unfold clearCart.
    destruct (Cart_findOne userId db) as [cart|]; [|exact H].
    apply oneLinePerProduct_destroy. exact H.
  - destruct (placeOrder_outcome userId db) as [H201|Hsame];
      [|destruct Hsame as (_ & _ & _ & Hi & _);
        exact (oneLinePerProduct_same _ _ Hi H)].
    destruct (placeOrder_committed userId db H201)
      as (cart & order & rows & _ & _ & _ & _ & _ & _ & _ & _ & Hi & _).
    intros c p. rewrite Hi.
    etransitivity; [apply findAll_destroy_length | apply H].
Qed.

Lemma oneLinePerProduct_preserved_witness :
  oneLinePerProduct (snd (addToCart 2 1 3 shopWithCart)) /\
  oneLinePerProduct (snd (addToCart 2 2 1 shopWithCart)) /\
  oneLinePerProduct shopWithOrder.
Proof.
  assert (H : oneLinePerProduct shopWithCart).
  { intros cartId productId. unfold shopWithCart. simpl.
    destruct (lineWhere cartId productId _); simpl; lia. }
  split; [|split].
  - apply (oneLinePerProduct_preserved 2 1 0 3 shopWithCart H).
  - apply (oneLinePerProduct_preserved 2 2 0 1 shopWithCart H).
  - apply (oneLinePerProduct_preserved 2 0 0 0 shopWithCart H).
Defined.

Lemma findOne_None_not_In {A} (key : A -> Z) k rows :
  findOne (fun r => key r =? k) rows = None -> ~ In k (map key rows).
Proof.
  intros Hnone Hin. apply in_map_iff in Hin. destruct Hin as (r & Hk & Hr).
  unfold findOne in Hnone. apply (find_none _ _ Hnone) in Hr.
  apply Z.eqb_neq in Hr. contradiction.
Qed.

Lemma oneCartPerUser_create userId db :
  Cart_findOne userId db = None ->
  oneCartPerUser db -> oneCartPerUser (snd (Cart_create userId db)).
Proof.
  unfold oneCartPerUser. intros Hnone Hnd. cbn [Cart_create snd Carts].
  rewrite map_app. simpl.
  apply NoDup_app; [exact Hnd | repeat constructor; intros [] |].
  intros u Hin [<-|[]]. revert Hin.
  apply (findOne_None_not_In cart_userId). exact Hnone.
Qed.

(** X14. The controllers keep "at most one cart per user": the two that
    create carts on demand, addToCart and getCart, create one only when the
    user has none, and updateCartItem, removeFromCart, clearCart and
    placeOrder leave the Carts table as it is. *)
Theorem oneCartPerUser_preserved
  (userId productId itemId quantity : Z) (db : DB) :
  oneCartPerUser db ->
  oneCartPerUser (snd (addToCart userId productId quantity db)) /\
  oneCartPerUser (snd (getCart userId db)) /\
  Carts (snd (updateCartItem userId itemId quantity db)) = Carts db /\
  Carts (snd (removeFromCart userId itemId db)) = Carts db /\
  Carts (snd (clearCart userId db)) = Carts db /\
  Carts (snd (placeOrder userId db)) = Carts db.
Proof.
  intros H. split; [|split; [|split; [|split; [|split]]]].
  - unfold addToCart.
    destruct (Product_findByPk productId db) as [product|]; [|exact H].
    assert (H1 : oneCartPerUser (snd (getOrCreateCart userId db))).
    { unfold getOrCreateCart.
      destruct (Cart_findOne userId db) eqn:Hc; [exact H|].
      apply oneCartPerUser_create; assumption. }
    destruct (getOrCreateCart userId db) as [cart db1]. cbn [snd] in H1.
    destruct (findOne _ (CartItems db1)) as [line|].
    + destruct (p_stock product <? _); exact H1.
    + unfold CartItem_create. destruct (_ && _); exact H1.
  - unfold getCart, Cart_findOne_include.
    destruct (Cart_findOne userId db) eqn:Hc; [exact H|].
    exact (oneCartPerUser_create userId db Hc H).
  - unfold updateCartItem.
    destruct (Cart_findOne userId db) as [cart|]; [|reflexivity].
    destruct (findOne _ _) as [line|]; [|reflexivity].
    destruct (quantity <? 1); [reflexivity|].
    destruct (Product_findByPk _ db) as [product|]; [|reflexivity].
    destruct (p_stock product <? quantity); reflexivity.
  - unfold removeFromCart.
    destruct (Cart_findOne userId db) as [cart|]; [|reflexivity].
    destruct (findOne _ _) as [line|]; reflexivity.
  - unfold clearCart.
    destruct (Cart_findOne userId db) as [cart|]; reflexivity.
  - destruct (placeOrder_outcome userId db) as [H201|Hsame];
      [|destruct Hsame as (_ & _ & Hcs & _); exact Hcs].
    destruct (placeOrder_committed userId db H201)
      as (cart & order & rows & _ & _ & _ & _ & _ & _ & _ & _ & _ & Hcs).
    exact Hcs.
Qed.

Lemma oneCartPerUser_preserved_witness :
  oneCartPerUser (snd (addToCart 3 2 1 shopWithCart)) /\
  oneCartPerUser (snd (getCart 2 shopWithCart)).
Proof.
  assert (H : oneCartPerUser shopWithCart).
  { unfold oneCartPerUser. vm_compute. repeat constructor. intros []. }
  split.
  - apply (oneCartPerUser_preserved 3 2 0 1 shopWithCart H).
  - apply (oneCartPerUser_preserved 2 0 0 0 shopWithCart H).
Defined.


(** ** One customer's requests and another customer's cart *)

Lemma findAll_update_other {A} (pred where_ : A -> bool) set rows :
  (forall r, pred (set r) = pred r) ->
  (forall r, In r rows -> pred r = true -> where_ r = false) ->
  findAll pred (update where_ set rows) = findAll pred rows.
Proof.
  intros Hset H. rewrite findAll_update by exact Hset.
  assert (Hin : forall r, In r (findAll pred rows) -> where_ r = false).
  { intros r Hr. unfold findAll in Hr. apply filter_In in Hr.
    destruct Hr as [Hr Hp]. exact (H r Hr Hp). }
  revert Hin. generalize (findAll pred rows). intros l Hl.
  unfold update. induction l as [|r l IH]; [reflexivity|].
  simpl. rewrite (Hl r (or_introl eq_refl)), IH; [reflexivity|].
  intros r' Hr'. apply Hl. right. exact Hr'.
Qed.

Lemma destroy_other_in {A} (gone kept : A -> bool) rows :
  (forall r, In r rows -> kept r = true -> gone r = false) ->
  findAll kept (destroy gone rows) = findAll kept rows.
Proof.
  unfold findAll, destroy. induction rows as [|r rows IH]; intros H;
    [reflexivity|].
  assert (Hrest : forall r', In r' rows -> kept r' = true -> gone r' = false)
    by (intros r' Hr'; apply H; right; exact Hr').
  simpl. destruct (kept r) eqn:K.
  - rewrite (H r (or_introl eq_refl) K). simpl. rewrite K, IH; auto.
  - destruct (gone r); simpl; rewrite ?K; auto.
Qed.

Lemma Cart_findOne_other_create userA userB db :
  userA <> userB ->
  Cart_findOne userB (snd (Cart_create userA db)) = Cart_findOne userB db.
Proof.
  intros Hne. unfold Cart_findOne. cbn [Cart_create snd Carts].
  rewrite findOne_app. destruct (findOne _ (Carts db)); [reflexivity|].
  simpl. apply Z.eqb_neq in Hne. rewrite Hne. reflexivity.
Qed.

(** Two users' carts are different rows, with different keys. *)
Lemma carts_differ userA userB db ca cb :
  cartKeys db -> userA <> userB ->
  Cart_findOne userA db = Some ca -> Cart_findOne userB db = Some cb ->
  cart_id ca <> cart_id cb.
Proof.
  intros [Hnd _] Hne Ha Hb Hid.
  apply findOne_In in Ha, Hb. destruct Ha as [Ha Hua], Hb as [Hb Hub].
  apply Z.eqb_eq in Hua, Hub.
  pose proof (NoDup_key_eq cart_id _ _ _ Hnd Ha Hb Hid). congruence.
Qed.

Lemma getOrCreateCart_other userA userB db :
  cartKeys db -> userA <> userB ->
  let ca := fst (getOrCreateCart userA db) in
  let db1 := snd (getOrCreateCart userA db) in
  Cart_findOne userB db1 = Cart_findOne userB db /\
  CartItems db1 = CartItems db /\
  forall cb, Cart_findOne userB db = Some cb -> cart_id ca <> cart_id cb.
Proof.
  intros Hkeys Hne. unfold getOrCreateCart.
  destruct (Cart_findOne userA db) as [ca|] eqn:Ha; cbn [fst snd].
  - repeat split. intros cb Hb. exact (carts_differ _ _ _ _ _ Hkeys Hne Ha Hb).
  - split; [apply Cart_findOne_other_create; exact Hne|]. split; [reflexivity|].
    intros cb Hb. cbn [Cart_create fst cart_id].
    apply findOne_In in Hb. destruct Hb as [Hb _].
    destruct Hkeys as [_ Hissued]. specialize (Hissued cb Hb). lia.
Qed.

Lemma linesOf_same userId db db' :
  Cart_findOne userId db' = Cart_findOne userId db ->
  (forall cart, Cart_findOne userId db = Some cart ->
                itemsOf (cart_id cart) db' = itemsOf (cart_id cart) db) ->
  linesOf userId db' = linesOf userId db.
Proof.
  intros Hc Hi. unfold linesOf. rewrite Hc.
  destruct (Cart_findOne userId db) as [cart|]; [|reflexivity].
  apply Hi. reflexivity.
Qed.

(** Saving a line of one cart leaves the lines of another cart alone. *)
Lemma itemsOf_save_other line quantity price cartId db :
  itemKeys db -> In line (CartItems db) -> ci_cartId line <> cartId ->
  itemsOf cartId (CartItem_save line quantity price db) = itemsOf cartId db.
Proof.
  intros Hkeys Hin Hne. unfold itemsOf, CartItem_save.
  cbn [CartItems set_CartItems].
  apply findAll_update_other; [reflexivity|].
  intros r Hr Hcart. apply Z.eqb_eq in Hcart. apply Z.eqb_neq. intros Hid.
  pose proof (NoDup_key_eq ci_id _ _ _ Hkeys Hr Hin Hid). congruence.
Qed.

Lemma itemsOf_destroy_id_other line cartId db :
  itemKeys db -> In line (CartItems db) -> ci_cartId line <> cartId ->
  itemsOf cartId
    (set_CartItems (destroy (fun i => ci_id i =? ci_id line) (CartItems db)) db)
  = itemsOf cartId db.
Proof.
  intros Hkeys Hin Hne. unfold itemsOf. cbn [CartItems set_CartItems].
  apply destroy_other_in.
  intros r Hr Hcart. apply Z.eqb_eq in Hcart. apply Z.eqb_neq. intros Hid.
  pose proof (NoDup_key_eq ci_id _ _ _ Hkeys Hr Hin Hid). congruence.
Qed.

Lemma itemsOf_destroy_cart_other gone cartId db :
  gone <> cartId ->
  itemsOf cartId
    (set_CartItems (destroy (fun i => ci_cartId i =? gone) (CartItems db)) db)
  = itemsOf cartId db.
Proof.
  intros Hne. unfold itemsOf. cbn [CartItems set_CartItems].
  apply destroy_other. intros r Hr. apply Z.eqb_eq in Hr. apply Z.eqb_neq.
  congruence.
Qed.

Lemma itemWhere_eq itemId cartId i :
  itemWhere itemId cartId i = true -> ci_id i = itemId /\ ci_cartId i = cartId.
Proof.
  unfold itemWhere. intros H. apply andb_true_iff in H.
  destruct H as [H1 H2]. apply Z.eqb_eq in H1, H2. auto.
Qed.

(** X15. Carts are isolated.  With cart and line ids being keys, no request
    of customer A (addToCart, getCart, updateCartItem with any item id,
    removeFromCart with any item id, clearCart, placeOrder) changes the lines
    of another customer B's selection. *)
Theorem carts_are_isolated
  (userA userB productId itemId quantity : Z) (db : DB) :
  cartKeys db -> itemKeys db -> userA <> userB ->
  linesOf userB (snd (addToCart userA productId quantity db)) = linesOf userB db /\
  linesOf userB (snd (getCart userA db)) = linesOf userB db /\
  linesOf userB (snd (updateCartItem userA itemId quantity db)) = linesOf userB db /\
  linesOf userB (snd (removeFromCart userA itemId db)) = linesOf userB db /\
  linesOf userB (snd (clearCart userA db)) = linesOf userB db /\
  linesOf userB (snd (placeOrder userA db)) = linesOf userB db.
Proof.
  intros Hck Hik Hne. split; [|split; [|split; [|split; [|split]]]].
  - unfold addToCart.
    destruct (Product_findByPk productId db) as [product|]; [|reflexivity].
    pose proof (getOrCreateCart_other userA userB db Hck Hne) as (Hc & Hi & Hd).
    destruct (getOrCreateCart userA db) as [ca db1]. cbn [fst snd] in Hc, Hi, Hd.
    assert (H1 : linesOf userB db1 = linesOf userB db).
    { apply linesOf_same; [exact Hc|]. intros cb _. unfold itemsOf.
      rewrite Hi. reflexivity. }
    assert (Hik1 : itemKeys db1) by (unfold itemKeys; rewrite Hi; exact Hik).
    rewrite <- H1.
    destruct (findOne _ (CartItems db1)) as [line|] eqn:Hline.
    + destruct (p_stock product <? _); [reflexivity|]. cbn [snd].
      apply findOne_In in Hline. destruct Hline as [Hin Hw].
      apply lineWhere_eq in Hw. destruct Hw as [Hcart _].
      apply linesOf_same; [reflexivity|]. intros cb Hb.
      apply itemsOf_save_other; [exact Hik1 | exact Hin|].
      rewrite Hcart. apply Hd. rewrite <- Hc. exact Hb.
    + unfold CartItem_create. destruct (_ && _); [|reflexivity].
      cbn [snd]. apply linesOf_same; [reflexivity|].
      intros cb Hb. unfold itemsOf. cbn [CartItems]. rewrite findAll_app.
      simpl. rewrite <- Hc in Hd. specialize (Hd cb Hb).
      apply Z.eqb_neq in Hd. rewrite Hd. apply app_nil_r.
  - unfold getCart, Cart_findOne_include.
    destruct (Cart_findOne userA db); [reflexivity|]. cbn [snd].
    apply linesOf_same; [apply Cart_findOne_other_create; exact Hne|].
    reflexivity.
  - unfold updateCartItem.
    destruct (Cart_findOne userA db) as [ca|] eqn:Ha; [|reflexivity].
    destruct (findOne _ _) as [line|] eqn:Hline; [|reflexivity].
    destruct (quantity <? 1); [reflexivity|].
    destruct (Product_findByPk _ db) as [product|]; [|reflexivity].
    destruct (p_stock product <? quantity); [reflexivity|]. cbn [snd].
    apply findOne_In in Hline. destruct Hline as [Hin Hw].
    apply itemWhere_eq in Hw. destruct Hw as [_ Hcart].
    apply linesOf_same; [reflexivity|]. intros cb Hb.
    apply itemsOf_save_other; [exact Hik | exact Hin|].
    rewrite Hcart. exact (carts_differ _ _ _ _ _ Hck Hne Ha Hb).
  - unfold removeFromCart.
    destruct (Cart_findOne userA db) as [ca|] eqn:Ha; [|reflexivity].
    destruct (findOne _ _) as [line|] eqn:Hline; [|reflexivity]. cbn [snd].
    apply findOne_In in Hline. destruct Hline as [Hin Hw].
    apply itemWhere_eq in Hw. destruct Hw as [_ Hcart].
    apply linesOf_same; [reflexivity|]. intros cb Hb.
    apply itemsOf_destroy_id_other; [exact Hik | exact Hin|].
    rewrite Hcart. exact (carts_differ _ _ _ _ _ Hck Hne Ha Hb).
  - unfold clearCart.
    destruct (Cart_findOne userA db) as [ca|] eqn:Ha; [|reflexivity]. cbn [snd].
    apply linesOf_same; [reflexivity|]. intros cb Hb.
    apply itemsOf_destroy_cart_other.
    exact (carts_differ _ _ _ _ _ Hck Hne Ha Hb).
  - destruct (placeOrder_outcome userA db) as [H201|Hsame].
    2:{ destruct Hsame as (_ & _ & Hcs & Hi & _).
        unfold linesOf, Cart_findOne, itemsOf. rewrite Hcs, Hi. reflexivity. }
    destruct (placeOrder_committed userA db H201)
      as (ca & order & rows & Ha & _ & _ & _ & _ & _ & _ & _ & Hi & Hcs).
    apply linesOf_same; [unfold Cart_findOne; rewrite Hcs; reflexivity|].
    intros cb Hb. unfold itemsOf. rewrite Hi. apply destroy_other.
    intros r Hr. apply Z.eqb_eq in Hr. apply Z.eqb_neq.
    pose proof (carts_differ _ _ _ _ _ Hck Hne Ha Hb). congruence.
Qed.

Lemma carts_are_isolated_witness :
  linesOf 3 (snd (addToCart 2 2 1 shopTwoCarts)) = linesOf 3 shopTwoCarts /\
  linesOf 3 (snd (updateCartItem 2 2 5 shopTwoCarts)) = linesOf 3 shopTwoCarts /\
  linesOf 3 (snd (placeOrder 2 shopTwoCarts)) = linesOf 3 shopTwoCarts.
Proof.
  assert (Hck : cartKeys shopTwoCarts).
  { split.
    - vm_compute. repeat constructor; simpl; intuition discriminate.
    - intros c [<-|[<-|[]]]; vm_compute; reflexivity. }
  assert (Hik : itemKeys shopTwoCarts).
  { unfold itemKeys. vm_compute.
    repeat constructor; simpl; intuition discriminate. }
  assert (Hne : 2 <> 3) by lia.
  split; [|split].
  - apply (carts_are_isolated 2 3 2 0 1 shopTwoCarts Hck Hik Hne).
  - apply (carts_are_isolated 2 3 0 2 5 shopTwoCarts Hck Hik Hne).
  - apply (carts_are_isolated 2 3 0 0 0 shopTwoCarts Hck Hik Hne).
Defined.

(** ** updateOrderStatus composes *)

Lemma update_status_twice id s1 s2 rows :
  update (fun o => o_id o =? id)
         (fun o => mkOrder (o_id o) (o_userId o) (o_totalAmount o) s2)
         (update (fun o => o_id o =? id)
                 (fun o => mkOrder (o_id o) (o_userId o) (o_totalAmount o) s1)
                 rows)
  = update (fun o => o_id o =? id)
           (fun o => mkOrder (o_id o) (o_userId o) (o_totalAmount o) s2)
           rows.
Proof.
  unfold update. rewrite map_map. apply map_ext. intros o.
  destruct (o_id o =? id) eqn:E; simpl; rewrite E; reflexivity.
Qed.

(** X16. The last status written wins: for an existing order and two valid
    statuses, updating to the first and then to the second leaves the same
    database as updating to the second right away, and both calls answer
    200; in particular writing the status an order already got again
    changes nothing. *)
Theorem updateOrderStatus_last_write_wins (id : Z) (s1 s2 : string) (db : DB) :
  validStatus s1 = true -> validStatus s2 = true ->
  Order_findByPk id db <> None ->
  let db1 := snd (updateOrderStatus id (Some s1) db) in
  status (fst (updateOrderStatus id (Some s1) db)) = 200 /\
  status (fst (updateOrderStatus id (Some s2) db1)) = 200 /\
  snd (updateOrderStatus id (Some s2) db1) = snd (updateOrderStatus id (Some s2) db) /\
  snd (updateOrderStatus id (Some s1) db1) = db1.
Proof.
  intros V1 V2 Hsome.
  destruct (Order_findByPk id db) as [order|] eqn:Ho; [clear Hsome|congruence].
  assert (Hid : o_id order = id).
  { apply findOne_In in Ho. apply Z.eqb_eq, Ho. }
  assert (Hstep : forall s, validStatus s = true ->
            updateOrderStatus id (Some s) db =
            (mkResponse 200 true (Some "Order status updated successfully")
               (Order_findByPk_include id
                  (set_Orders
                     (update (fun o => o_id o =? id)
                        (fun o => mkOrder (o_id o) (o_userId o) (o_totalAmount o) s)
                        (Orders db)) db)),
             set_Orders
               (update (fun o => o_id o =? id)
                  (fun o => mkOrder (o_id o) (o_userId o) (o_totalAmount o) s)
                  (Orders db)) db)).
  { intros s V. unfold updateOrderStatus. rewrite V, Ho, Hid. reflexivity. }
  assert (Hstep1 : forall s s', validStatus s' = true ->
            snd (updateOrderStatus id (Some s')
                   (set_Orders
                      (update (fun o => o_id o =? id)
                         (fun o => mkOrder (o_id o) (o_userId o) (o_totalAmount o) s)
                         (Orders db)) db)) =
            set_Orders
              (update (fun o => o_id o =? id)
                 (fun o => mkOrder (o_id o) (o_userId o) (o_totalAmount o) s')
                 (Orders db)) db /\
            status (fst (updateOrderStatus id (Some s')
                   (set_Orders
                      (update (fun o => o_id o =? id)
                         (fun o => mkOrder (o_id o) (o_userId o) (o_totalAmount o) s)
                         (Orders db)) db))) = 200).
  { intros s s' V'. unfold updateOrderStatus. rewrite V'.
    unfold Order_findByPk. cbn [Orders set_Orders].
    rewrite findOne_update by reflexivity.
    unfold Order_findByPk in Ho. rewrite Ho. cbn [option_map negb].
    rewrite (proj2 (Z.eqb_eq _ _) Hid). cbn [o_id fst snd status set_Orders Orders].
    rewrite Hid, update_status_twice. split; reflexivity. }
  cbv zeta. rewrite (Hstep s1 V1), (Hstep s2 V2). cbn [fst snd status].
  destruct (Hstep1 s1 s2 V2) as [E2 S2]. destruct (Hstep1 s1 s1 V1) as [E1 _].
  repeat split; assumption.
Qed.

Lemma updateOrderStatus_last_write_wins_witness :
  snd (updateOrderStatus 1 (Some "cancelled")
         (snd (updateOrderStatus 1 (Some "completed") shopWithOrder)))
  = snd (updateOrderStatus 1 (Some "cancelled") shopWithOrder).
Proof.
  apply (updateOrderStatus_last_write_wins 1 "completed" "cancelled" shopWithOrder);
    [reflexivity | reflexivity | vm_compute; discriminate].
Defined.

(** ** updateProduct *)





(** X18. updateProduct is all or nothing: when the answer is not the 200
    (unknown product, unknown category, failed upload) the database is
    unchanged. *)
Theorem updateProduct_failure_changes_nothing
  (id : Z) (body : ProductBody) (file : Upload) (db : DB) :
  status (fst (updateProduct id body file db)) <> 200 ->
  snd (updateProduct id body file db) = db.
Proof.
  unfold updateProduct.
  destruct (Product_findByPk id db) as [product|]; [|reflexivity].
  destruct (match b_categoryId body with Some _ => _ | None => _ end);
    [reflexivity|].
  destruct file; [| |reflexivity];
    (destruct (match b_categoryId body with Some _ => _ | None => _ end);
     [reflexivity|]);
    cbn [fst snd status]; intros H; contradiction.
Qed.

Lemma updateProduct_failure_changes_nothing_witness :
  snd (updateProduct 9999 raisePrice NoFile shop) = shop /\
  snd (updateProduct 1 (mkProductBody None None (Some 1) None (Some 7)) NoFile shop)
  = shop /\
  snd (updateProduct 1 raisePrice UploadError shop) = shop.
Proof.
  split; [|split]; apply updateProduct_failure_changes_nothing;
    vm_compute; discriminate.
Defined.

(** ** addToCart: a line without a price *)

(** X19. The repair in addToCart.  Adding to an existing line that has no
    priceAtAdd (and whose new quantity fits the stock) gives the line the
    product's current price; adding to a line that has a price keeps that
    price, whatever the product costs now.  In both cases the quantities
    add up and the cart still has the one line for the product. *)
Theorem addToCart_backfills_missing_price
  (userId productId quantity : Z) (db : DB)
  (product : Product) (cart : Cart) (line : CartItem) :
  Product_findByPk productId db = Some product ->
  Cart_findOne userId db = Some cart ->
  linesFor productId (itemsOf (cart_id cart) db) = [line] ->
  ci_quantity line + quantity <= p_stock product ->
  exists line',
    linesFor productId (linesOf userId (snd (addToCart userId productId quantity db)))
      = [line'] /\
    ci_id line' = ci_id line /\
    ci_quantity line' = ci_quantity line + quantity /\
    (ci_priceAtAdd line = None -> ci_priceAtAdd line' = Some (p_price product)) /\
    (forall price, ci_priceAtAdd line = Some price ->
                   ci_priceAtAdd line' = Some price).
Proof.
  intros Hp Hc Hl Hq.
  destruct (addToCart_merges_line userId productId quantity db product cart line
              Hp Hc Hl) as [Hok _].
  destruct (Hok Hq) as (_ & Hcs & Hline).
  eexists. split.
  - unfold linesOf, Cart_findOne in *. rewrite Hcs, Hc. exact Hline.
  - cbn [ci_id ci_quantity ci_priceAtAdd]. repeat split.
    + intros ->. reflexivity.
    + intros price ->. reflexivity.
Qed.

Lemma addToCart_backfills_missing_price_witness :
  (exists line',
     linesFor 1 (linesOf 2 (snd (addToCart 2 1 3 (snd (updateProduct 1 raisePrice NoFile shopLegacyLine)))))
       = [line'] /\
     ci_quantity line' = 5 /\ ci_priceAtAdd line' = Some 49999) /\
  (exists line',
     linesFor 1 (linesOf 2 (snd (addToCart 2 1 3 (snd (updateProduct 1 raisePrice NoFile shopWithCart)))))
       = [line'] /\
     ci_quantity line' = 5 /\ ci_priceAtAdd line' = Some 39999).
Proof.
  split.
  - destruct (addToCart_backfills_missing_price 2 1 3
                (snd (updateProduct 1 raisePrice NoFile shopLegacyLine))
                (mkProduct 1 "Tablet" (Some "Portable tablet device") 49999 13 1 None)
                (mkCart 1 2) (mkCartItem 1 1 1 2 None))
      as (line' & Hl & _ & Hq & Hnone & _);
      [reflexivity | reflexivity | reflexivity | simpl; lia |].
    exists line'. split; [exact Hl|]. split; [exact Hq|]. apply Hnone. reflexivity.
  - destruct (addToCart_backfills_missing_price 2 1 3
                (snd (updateProduct 1 raisePrice NoFile shopWithCart))
                (mkProduct 1 "Tablet" (Some "Portable tablet device") 49999 13 1 None)
                (mkCart 1 2) (mkCartItem 1 1 1 2 (Some 39999)))
      as (line' & Hl & _ & Hq & _ & Hsome);
      [reflexivity | reflexivity | reflexivity | simpl; lia |].
    exists line'. split; [exact Hl|]. split; [exact Hq|].
    apply (Hsome 39999). reflexivity.
Defined.

(** ** addToCart: refusals *)

(** X20. What a refused addToCart leaves behind.  The answer is 404 exactly
    when the product does not exist, and then nothing at all changes (no cart
    is created for a customer without one).  Whenever the answer is not 200,
    the CartItems table is as before: a refusal never alters or adds a
    line. *)
Theorem addToCart_refusals (userId productId quantity : Z) (db : DB) :
  (status (fst (addToCart userId productId quantity db)) = 404 <->
   Product_findByPk productId db = None) /\
  (Product_findByPk productId db = None ->
   addToCart userId productId quantity db =
   (failure 404 "Product not found", db)) /\
  (status (fst (addToCart userId productId quantity db)) <> 200 ->
   CartItems (snd (addToCart userId productId quantity db)) = CartItems db).
Proof.
  unfold addToCart.
  destruct (Product_findByPk productId db) as [product|].
  - assert (Hi : CartItems (snd (getOrCreateCart userId db)) = CartItems db).
    { unfold getOrCreateCart. destruct (Cart_findOne userId db); reflexivity. }
    destruct (getOrCreateCart userId db) as [cart db1]. cbn [snd] in Hi.
    destruct (findOne _ (CartItems db1)) as [line|].
    + destruct (p_stock product <? _); cbn [fst snd status].
      * split; [split; intros H; discriminate H|]. split; [discriminate|].
        intros _. exact Hi.
      * split; [split; intros H; discriminate H|]. split; [discriminate|].
        intros H. contradiction.
    + unfold CartItem_create. destruct (_ && _); cbn [fst snd status].
      * split; [split; intros H; discriminate H|]. split; [discriminate|].
        intros H. contradiction.
      * split; [split; intros H; discriminate H|]. split; [discriminate|].
        intros _. exact Hi.
  - cbn [fst snd status]. split; [split; reflexivity|].
    split; reflexivity.
Qed.

Lemma addToCart_refusals_witness :
  addToCart 3 9999 1 shopWithCart = (failure 404 "Product not found", shopWithCart) /\
  CartItems (snd (addToCart 2 1 100 shopWithCart)) = CartItems shopWithCart.
Proof.
  destruct (addToCart_refusals 3 9999 1 shopWithCart) as (_ & Hmissing & _).
  destruct (addToCart_refusals 2 1 100 shopWithCart) as (_ & _ & Hsame).
  split; [apply Hmissing; reflexivity|].
  apply Hsame. vm_compute. discriminate.
Defined.

(** ** getCart: a line without a price *)

Lemma addLineTotal_NaN items : fold_left addLineTotal items NaN = NaN.
Proof. induction items as [|item items IH]; [reflexivity | exact IH]. Qed.

Lemma addLineTotal_missing_price items :
  forall sum,
    Exists (fun item => ci_priceAtAdd (fst item) = None) items ->
    fold_left addLineTotal items sum = NaN.
Proof.
  induction items as [|item items IH]; intros sum Hex; [inversion Hex|].
  cbn [fold_left]. inversion Hex as [? ? Hnone|? ? Hrest]; subst.
  - assert (Hstep : addLineTotal sum item = NaN).
    { unfold addLineTotal, lineTotal. rewrite Hnone. cbn [parseFloat times].
      destruct sum; reflexivity. }
    rewrite Hstep. apply addLineTotal_NaN.
  - apply IH. exact Hrest.
Qed.

(** X21. One line without a priceAtAdd spoils getCart's total: the sum is
    NaN and the response shows "NaN" instead of an amount, while the status
    is still 200 and nothing is written. *)
Theorem getCart_total_NaN (userId : Z) (db : DB) (line : CartItem) :
  In line (linesOf userId db) -> ci_priceAtAdd line = None ->
  snd (getCart userId db) = db /\
  status (fst (getCart userId db)) = 200 /\
  exists view,
    data (fst (getCart userId db)) = Some view /\ ctv_total view = None.
Proof.
  unfold linesOf, getCart, Cart_findOne_include. intros Hin Hnone.
  destruct (Cart_findOne userId db) as [cart|]; [|contradiction].
  cbn [fst snd status data]. split; [reflexivity|]. split; [reflexivity|].
  eexists. split; [reflexivity|]. cbn [ctv_total cv_items].
  rewrite cartTotal_fold, addLineTotal_missing_price; [reflexivity|].
  apply Exists_exists. exists (includeProduct db line).
  split; [apply in_map; exact Hin | exact Hnone].
Qed.

Lemma getCart_total_NaN_witness :
  exists view,
    data (fst (getCart 2 shopLegacyLine)) = Some view /\ ctv_total view = None.
Proof.
  destruct (getCart_total_NaN 2 shopLegacyLine (mkCartItem 1 1 1 2 None))
    as (_ & _ & H); [left; reflexivity | reflexivity | exact H].
Defined.

(** ** The ledger agrees with the stock and with itself *)

Lemma copiesLine_sold orderId productId lines rows :
  Forall2 (copiesLine orderId) lines rows ->
  soldQuantity productId rows = orderedQuantity productId lines.
Proof.
  unfold soldQuantity, orderedQuantity, linesFor, findAll.
  induction 1 as [|l r lines rows (_ & Hp & Hq & _) _ IH]; [reflexivity|].
  simpl. rewrite Hp. destruct (ci_productId l =? productId); simpl; lia.
Qed.

Lemma copiesLine_total orderId lines rows :
  Forall2 (copiesLine orderId) lines rows ->
  spec_totalCents lines = orderLinesTotal rows /\
  Forall (fun l => ci_priceAtAdd l <> None) lines.
Proof.
  induction 1 as [|l r lines rows (_ & _ & Hq & Hprice) _ [IH1 IH2]].
  - split; [reflexivity | constructor].
  - split.
    + rewrite spec_totalCents_cons, <- Hprice, IH1, <- Hq. reflexivity.
    + constructor; [rewrite <- Hprice; discriminate | exact IH2].
Qed.

(** X22. Stock and ledger reconcile: when placeOrder answers 201, the
    stock each product lost is exactly the quantity the new order lines
    record for that product. *)
Theorem placeOrder_stock_matches_ledger (userId : Z) (db : DB) :
  status (fst (placeOrder userId db)) = 201 ->
  let db' := snd (placeOrder userId db) in
  exists rows,
    OrderItems db' = OrderItems db ++ rows /\
    forall productId p,
      Product_findByPk productId db = Some p ->
      exists p',
        Product_findByPk productId db' = Some p' /\
        p_stock p - p_stock p' = soldQuantity productId rows.
Proof.
  intros H201 db'.
  pose proof (placeOrder_committed_checked userId db H201) as Hchecked.
  destruct (placeOrder_committed userId db H201)
    as (cart & order & rows & Hc & _ & _ & _ & _ & Hoi & Hcopy & Hprod & _).
  fold db' in Hoi, Hprod.
  assert (Hlines : linesOf userId db = itemsOf (cart_id cart) db).
  { unfold linesOf. rewrite Hc. reflexivity. }
  rewrite Hlines in Hchecked.
  exists rows. split; [exact Hoi|]. intros productId p Hp.
  destruct (decrementStock_lookup
              (map (includeProduct db) (itemsOf (cart_id cart) db)) db productId p)
    as (p' & Hp' & Hstock & _).
  { apply items_reference_products. intros l Hl.
    destruct (Hchecked l Hl) as (q & Hq & _). eauto. }
  { exact Hp. }
  exists p'. split.
  - unfold Product_findByPk in *. rewrite Hprod. exact Hp'.
  - rewrite lines_of_items in Hstock.
    rewrite (copiesLine_sold _ productId _ _ Hcopy). lia.
Qed.

Lemma placeOrder_stock_matches_ledger_witness :
  exists rows,
    OrderItems shopWithOrder = OrderItems shopWithCart ++ rows /\
    exists p',
      Product_findByPk 1 shopWithOrder = Some p' /\
      15 - p_stock p' = soldQuantity 1 rows.
Proof.
  destruct (placeOrder_stock_matches_ledger 2 shopWithCart eq_refl)
    as (rows & Hoi & Hstock).
  exists rows. split; [exact Hoi|]. exact (Hstock 1 tablet eq_refl).
Defined.

(** X23. An order adds up, for a selection within the columns' ranges
    (every line with a frozen price that is not negative and a quantity
    between 1 and 2147483647, at most 100000 lines, an exact total below
    100000000.00): when placeOrder answers 201, the totalAmount of the order
    it adds, a sum of doubles formatted by toFixed(2), is the exact sum of
    priceAtPurchase x quantity over the order lines it adds with it. *)
Theorem placeOrder_total_matches_lines (userId : Z) (db : DB) :
  forallb columnsValid (linesOf userId db) = true ->
  Z.of_nat (List.length (linesOf userId db)) <= 100000 ->
  spec_totalCents (linesOf userId db) < 10 ^ 10 ->
  status (fst (placeOrder userId db)) = 201 ->
  let db' := snd (placeOrder userId db) in
  exists order rows,
    Orders db' = Orders db ++ [order] /\
    OrderItems db' = OrderItems db ++ rows /\
    Forall (fun r => oi_orderId r = o_id order) rows /\
    o_totalAmount order = orderLinesTotal rows.
Proof.
  intros Hvalid Hlen Hbound H201 db'.
  destruct (placeOrder_committed userId db H201)
    as (cart & order & rows & Hc & Htot & _ & _ & Ho & Hoi & Hcopy & _).
  exists order, rows. split; [exact Ho|]. split; [exact Hoi|]. split.
  - clear -Hcopy. induction Hcopy as [|l r lines rows (Hid & _) _ IH];
      constructor; assumption.
  - destruct (copiesLine_total _ _ _ Hcopy) as [Hsum _].
    unfold linesOf in Hvalid, Hlen, Hbound. rewrite Hc in Hvalid, Hlen, Hbound.
    rewrite (toFixed2_selection db _ Hvalid Hlen Hbound) in Htot.
    injection Htot as ->. exact Hsum.
Qed.

Lemma placeOrder_total_matches_lines_witness :
  exists order rows,
    Orders shopWithOrder = Orders shopWithCart ++ [order] /\
    OrderItems shopWithOrder = OrderItems shopWithCart ++ rows /\
    o_totalAmount order = orderLinesTotal rows.
Proof.
  assert (Hlen : Z.of_nat (List.length (linesOf 2 shopWithCart)) <= 100000)
    by (vm_compute; discriminate).
  assert (Hbound : spec_totalCents (linesOf 2 shopWithCart) < 10 ^ 10)
    by reflexivity.
  destruct (placeOrder_total_matches_lines 2 shopWithCart eq_refl Hlen Hbound
              eq_refl)
    as (order & rows & Ho & Hoi & _ & Htot).
  exists order, rows. repeat split; assumption.
Defined.
